(** * kittens-inc/webhook: event authentication and dispatch

    A shallow embedding of the webhook relay's authentication and dispatch
    core together with the properties its specification states about it:
    [CryptoUtils] ([src/utils/crypto.ts]), [WebhookServer] ([src/main.ts]),
    [ConfigManager] ([src/config]), the push, workflow-run and workflow-job
    handlers ([src/events]), and the registry [eventManager], whose source
    is not at hand and which follows the specification.

    Conventions.
    - A JavaScript string is a [string]: for header values every [ascii] is
      one code unit (header values are byte strings); for the request body
      and the secret the [string] is the UTF-8 text, so that
      [new TextEncoder().encode(s)] is the list of its bytes.
    - A [Uint8Array] is a [list Z] of values in [0, 256).
    - A computation that may throw (or a promise that may reject) returns an
      [outcome]. *)

From Stdlib Require Import ZArith Ascii String.
From stdpp Require Import base list strings gmap.

Set Warnings "-register-all".
Local Open Scope Z_scope.

(** ** Outcomes of computations that may throw *)

Inductive outcome (A : Type) : Type :=
  | Returned (a : A)
  | Threw (err : string).
Arguments Returned {A} a.
Arguments Threw {A} err.

#[global] Instance outcome_ret : MRet outcome := fun A a => Returned a.
#[global] Instance outcome_bind : MBind outcome := fun A B k m =>
  match m with
  | Returned a => k a
  | Threw e => Threw e
  end.

(** [try { body } catch (error) { handler }] *)
Definition try_catch {A} (body : outcome A) (handler : string -> outcome A)
  : outcome A :=
  match body with
  | Returned a => Returned a
  | Threw e => handler e
  end.

(** ** The platform's SHA-256 (FIPS 180-4) and HMAC (RFC 2104)

    [crypto.subtle] is the runtime's Web Crypto implementation; the two
    primitives it is asked for are written out so that signatures can be
    computed. *)

Module SHA256.

Definition mask32 : Z := 0xffffffff.
Definition add32 (x y : Z) : Z := Z.land (x + y) mask32.
Definition rotr (n x : Z) : Z :=
  Z.lor (Z.shiftr x n) (Z.land (Z.shiftl x (32 - n)) mask32).
Definition shr (n x : Z) : Z := Z.shiftr x n.
Definition not32 (x : Z) : Z := Z.lxor x mask32.

Definition Ch (x y z : Z) : Z := Z.lxor (Z.land x y) (Z.land (not32 x) z).
Definition Maj (x y z : Z) : Z :=
  Z.lxor (Z.lxor (Z.land x y) (Z.land x z)) (Z.land y z).
Definition bsig0 (x : Z) : Z := Z.lxor (Z.lxor (rotr 2 x) (rotr 13 x)) (rotr 22 x).
Definition bsig1 (x : Z) : Z := Z.lxor (Z.lxor (rotr 6 x) (rotr 11 x)) (rotr 25 x).
Definition ssig0 (x : Z) : Z := Z.lxor (Z.lxor (rotr 7 x) (rotr 18 x)) (shr 3 x).
Definition ssig1 (x : Z) : Z := Z.lxor (Z.lxor (rotr 17 x) (rotr 19 x)) (shr 10 x).

(** The constants are given by their definition (sections 4.2.2 and
    5.3.3): the first thirty-two bits of the fractional parts of the cube
    roots of the first sixty-four primes, and of the square roots of the
    first eight. *)
Definition is_prime (n : Z) : bool :=
  forallb (fun d => negb (n mod d =? 0)) (seqZ 2 (n - 2)).

Definition primes : list Z := filter (fun n => is_prime n = true) (seqZ 2 310).

(** The integer cube root, by bisection between [lo] and [hi]. *)
Fixpoint cube_root (fuel : nat) (lo hi n : Z) : Z :=
  match fuel with
  | O => lo
  | S fuel' =>
      if hi - lo <=? 1 then lo
      else
        let mid := (lo + hi) / 2 in
        if mid * mid * mid <=? n then cube_root fuel' mid hi n
        else cube_root fuel' lo mid n
  end.

Definition K : list Z :=
  Eval vm_compute in
    map (fun p => Z.land (cube_root 64 0 (2 ^ 35) (p * 2 ^ 96)) mask32) primes.

(** The eight working variables / the intermediate hash value. *)
Record state := State { sa : Z; sb : Z; sc : Z; sd : Z;
                        se : Z; sf : Z; sg : Z; sh : Z }.

Definition frac_sqrt (p : Z) : Z := Z.land (Z.sqrt (p * 2 ^ 64)) mask32.

Definition H0 : state :=
  Eval vm_compute in
    State (frac_sqrt 2) (frac_sqrt 3) (frac_sqrt 5) (frac_sqrt 7)
          (frac_sqrt 11) (frac_sqrt 13) (frac_sqrt 17) (frac_sqrt 19).

(** Big-endian bytes of a 32-bit word, and back. *)
Definition be32 (x : Z) : list Z :=
  [ Z.land (Z.shiftr x 24) 255; Z.land (Z.shiftr x 16) 255;
    Z.land (Z.shiftr x 8) 255; Z.land x 255 ].

Definition word_of (b0 b1 b2 b3 : Z) : Z :=
  Z.lor (Z.lor (Z.shiftl b0 24) (Z.shiftl b1 16)) (Z.lor (Z.shiftl b2 8) b3).

Fixpoint words (bs : list Z) : list Z :=
  match bs with
  | b0 :: b1 :: b2 :: b3 :: rest => word_of b0 b1 b2 b3 :: words rest
  | _ => []
  end.

(** Section 5.1.1: append the bit 1, then zero bits up to 448 mod 512, then
    the 64-bit length. *)
Definition pad (msg : list Z) : list Z :=
  let l := Z.of_nat (length msg) in
  let k := (55 - l) mod 64 in
  msg ++ [0x80] ++ replicate (Z.to_nat k) 0
      ++ be32 (Z.shiftr (l * 8) 32) ++ be32 (Z.land (l * 8) mask32).

(** Section 6.2.2 step 1: the message schedule, sixteen words extended to
    sixty-four. *)
Fixpoint extend (n : nat) (w : list Z) : list Z :=
  match n with
  | O => w
  | S n' =>
      let t := length w in
      let at_ i := nth (t - i) w 0 in
      extend n' (w ++ [add32 (add32 (ssig1 (at_ 2%nat)) (at_ 7%nat))
                             (add32 (ssig0 (at_ 15%nat)) (at_ 16%nat))])
  end.

Definition schedule (block : list Z) : list Z := extend 48 (words block).

(** Section 6.2.2 step 3: one round. *)
Definition round (s : state) (kw : Z * Z) : state :=
  let T1 := add32 (add32 (add32 (sh s) (bsig1 (se s)))
                         (add32 (Ch (se s) (sf s) (sg s)) (fst kw))) (snd kw) in
  let T2 := add32 (bsig0 (sa s)) (Maj (sa s) (sb s) (sc s)) in
  State (add32 T1 T2) (sa s) (sb s) (sc s) (add32 (sd s) T1) (se s) (sf s) (sg s).

Definition compress (h : state) (block : list Z) : state :=
  let s := fold_left round (combine K (schedule block)) h in
  State (add32 (sa h) (sa s)) (add32 (sb h) (sb s))
        (add32 (sc h) (sc s)) (add32 (sd h) (sd s))
        (add32 (se h) (se s)) (add32 (sf h) (sf s))
        (add32 (sg h) (sg s)) (add32 (sh h) (sh s)).

Fixpoint blocks (n : nat) (bs : list Z) : list (list Z) :=
  match n with
  | O => []
  | S n' => take 64 bs :: blocks n' (drop 64 bs)
  end.

Definition digest_bytes (s : state) : list Z :=
  be32 (sa s) ++ be32 (sb s) ++ be32 (sc s) ++ be32 (sd s) ++
  be32 (se s) ++ be32 (sf s) ++ be32 (sg s) ++ be32 (sh s).

Definition sha256 (msg : list Z) : list Z :=
  let p := pad msg in
  digest_bytes (fold_left compress (blocks (length p / 64) p) H0).

End SHA256.

Module HMAC.

Definition block_size : nat := 64.

(** RFC 2104: keys longer than a block are hashed first, then the key is
    padded with zeros to a full block. *)
Definition block_key (key : list Z) : list Z :=
  let k := if (block_size <? length key)%nat then SHA256.sha256 key else key in
  k ++ replicate (block_size - length k) 0.

Definition xor_pad (c : Z) (k : list Z) : list Z := map (Z.lxor c) k.

Definition hmac_sha256 (key msg : list Z) : list Z :=
  let k := block_key key in
  SHA256.sha256 (xor_pad 0x5c k ++ SHA256.sha256 (xor_pad 0x36 k ++ msg)).

End HMAC.

(** ** Strings as the runtime sees them *)

Definition code (c : ascii) : Z := Z.of_nat (nat_of_ascii c).

(** [new TextEncoder().encode(s)] *)
Definition TextEncoder_encode (s : string) : list Z :=
  map code (list_ascii_of_string s).

(** A non-empty string is truthy: [if (s)], [!s]. *)
Definition truthy_string (s : string) : bool :=
  match s with
  | EmptyString => false
  | String _ _ => true
  end.

(** [s.slice(i, j)] for [0 <= i <= j]. *)
Definition slice (s : string) (i j : nat) : string := substring i (j - i) s.

(** [s.replace(pat, rep)] with a string pattern: the first occurrence of
    [pat], wherever it is, is replaced; without an occurrence [s] is
    returned as it is. *)
Fixpoint String_replace (s pat rep : string) : string :=
  if String.prefix pat s
  then rep +:+ substring (String.length pat) (String.length s) s
  else match s with
       | EmptyString => EmptyString
       | String c s' => String c (String_replace s' pat rep)
       end.

(** *** [parseInt(string, radix)] (ECMAScript 19.2.5)

    The result is a Number; [None] stands for NaN.  Only integers far below
    2^53 occur here, so Numbers are exact.  White space is what ECMAScript
    counts as such among the code units below 256. *)

Definition is_StrWhiteSpaceChar (c : ascii) : bool :=
  bool_decide (code c ∈ [9; 10; 11; 12; 13; 32; 160]).

Fixpoint trim_start (s : string) : string :=
  match s with
  | String c r => if is_StrWhiteSpaceChar c then trim_start r else s
  | EmptyString => EmptyString
  end.

Definition digit_value (c : ascii) : option Z :=
  let n := code c in
  if (48 <=? n) && (n <=? 57) then Some (n - 48)
  else if (97 <=? n) && (n <=? 122) then Some (n - 87)
  else if (65 <=? n) && (n <=? 90) then Some (n - 55)
  else None.

Definition radix_digit (R : Z) (c : ascii) : option Z :=
  match digit_value c with
  | Some d => if d <? R then Some d else None
  | None => None
  end.

(** The values of the longest prefix of radix-[R] digits. *)
Fixpoint leading_digits (R : Z) (s : string) : list Z :=
  match s with
  | String c r =>
      match radix_digit R c with
      | Some d => d :: leading_digits R r
      | None => []
      end
  | EmptyString => []
  end.

Definition parseInt (s : string) (radix : Z) : option Z :=
  let str := trim_start s in
  let sign := match str with String "-" _ => -1 | _ => 1 end in
  let str := match str with
             | String "+" r => r
             | String "-" r => r
             | _ => str
             end in
  if (radix =? 0) || ((2 <=? radix) && (radix <=? 36)) then
    let stripPrefix := (radix =? 0) || (radix =? 16) in
    let R := if radix =? 0 then 10 else radix in
    let '(str, R) := if stripPrefix then
                       match str with
                       | String "0" (String "x" r) => (r, 16)
                       | String "0" (String "X" r) => (r, 16)
                       | _ => (str, R)
                       end
                     else (str, R) in
    match leading_digits R str with
    | [] => None
    | ds => Some (sign * fold_left (fun acc d => acc * R + d) ds 0)
    end
  else None.

(** Storing a Number into a [Uint8Array] element: ToUint8, NaN becomes 0. *)
Definition ToUint8 (v : option Z) : Z :=
  match v with
  | Some n => n mod 256
  | None => 0
  end.

(** ** [CryptoUtils] ([src/utils/crypto.ts]) *)

Module CryptoUtils.

(** The loop of [hexToBuffer].  [bytes[i / 2] = v] on a typed array stores
    nothing when the index is past the end, as list insertion does. *)
Fixpoint hexToBuffer_loop (fuel : nat) (hex : string) (i : nat) (bytes : list Z)
  : list Z :=
  match fuel with
  | O => bytes
  | S fuel' =>
      if (i <? String.length hex)%nat
      then hexToBuffer_loop fuel' hex (i + 2)
             (<[(i / 2)%nat := ToUint8 (parseInt (slice hex i (i + 2)) 16)]> bytes)
      else bytes
  end.

(** [new Uint8Array(hex.length / 2)] truncates a fractional length (ToIndex)
    and is filled with zeros.  The loop runs at most [hex.length] times. *)
Definition hexToBuffer (hex : string) : list Z :=
  hexToBuffer_loop (String.length hex) hex 0
    (replicate (String.length hex / 2) 0).

(** [crypto.subtle.importKey("raw", keyData, {name: "HMAC", hash: "SHA-256"},
    false, ["verify"])]: with these arguments the only failure of the HMAC
    import operation is the zero-length key, a [DataError]. *)
Definition importKey (keyData : list Z) : outcome (list Z) :=
  match keyData with
  | [] => Threw "DataError"
  | _ => Returned keyData
  end.

(** [crypto.subtle.verify("HMAC", key, signature, data)]: the MAC of [data]
    is computed and the result is whether it equals [signature]. *)
Definition subtle_verify (key signature data : list Z) : outcome bool :=
  Returned (bool_decide (HMAC.hmac_sha256 key data = signature)).

(** The buffer handed to the comparison (line 15). *)
Definition signatureBuffer (signature : string) : list Z :=
  hexToBuffer (String_replace signature "sha256=" "").

(** Lines 8-37.  The [catch] block also writes the error to the console,
    which is not represented. *)
Definition verifyGitHubSignature (signature payload secret : string)
  : outcome bool :=
  try_catch
    (let signatureBuffer := signatureBuffer signature in
     key ← importKey (TextEncoder_encode secret);
     subtle_verify key signatureBuffer (TextEncoder_encode payload))
    (fun error => Returned false).

End CryptoUtils.

(** *** The lowercase hexadecimal encoding of a byte sequence, as GitHub
    writes the digest into the [X-Hub-Signature-256] header. *)

Definition hex_char (d : Z) : ascii :=
  ascii_of_nat (Z.to_nat (if d <? 10 then 48 + d else 87 + d)).

Definition hex_byte (b : Z) : string :=
  String (hex_char (b / 16)) (String (hex_char (b mod 16)) EmptyString).

Fixpoint hex_encode (bs : list Z) : string :=
  match bs with
  | [] => EmptyString
  | b :: rest => hex_byte b +:+ hex_encode rest
  end.

(** The header GitHub sends for [body] under [secret]. *)
Definition github_signature (body secret : string) : string :=
  "sha256=" +:+
  hex_encode (HMAC.hmac_sha256 (TextEncoder_encode secret) (TextEncoder_encode body)).

(** The bytes [hexToBuffer] produces, read off the string two characters at
    a time; a last single character leaves no byte. *)
Fixpoint decode_pairs (hex : string) : list Z :=
  match hex with
  | String a (String b rest) =>
      ToUint8 (parseInt (String a (String b EmptyString)) 16) :: decode_pairs rest
  | _ => []
  end.

(** [pat] occurs somewhere in [s]. *)
Definition occurs (pat s : string) : Prop :=
  exists pre post, s = pre +:+ pat +:+ post.

(** *** Malformed signature headers

    A header is well formed when what follows its [sha256=] prefix is an
    even number of hexadecimal digits and nothing else. *)

Definition is_hex_digit (c : ascii) : bool :=
  match radix_digit 16 c with
  | Some _ => true
  | None => false
  end.

Fixpoint all_hex (s : string) : bool :=
  match s with
  | EmptyString => true
  | String c rest => is_hex_digit c && all_hex rest
  end.

Definition after_prefix (signature : string) : string :=
  if String.prefix "sha256=" signature
  then substring 7 (String.length signature) signature
  else signature.

Definition malformed (signature : string) : bool :=
  negb (all_hex (after_prefix signature))
  || Nat.odd (String.length (after_prefix signature)).

(** ** State and failure together

    Code that acts on the world and may throw: a state transformer that
    returns an [outcome].  A thrown error skips the rest of the block, as an
    exception does. *)

Definition SO (St A : Type) : Type := St -> St * outcome A.

#[global] Instance SO_ret {St} : MRet (SO St) := fun A a st => (st, Returned a).
#[global] Instance SO_bind {St} : MBind (SO St) := fun A B k m st =>
  match m st with
  | (st', Returned a) => k a st'
  | (st', Threw e) => (st', Threw e)
  end.

(** A pure computation that may throw, run inside a block. *)
Definition lift {St A} (o : outcome A) : SO St A := fun st => (st, o).

Definition try_catchSO {St A} (body : SO St A) (handler : string -> SO St A)
  : SO St A := fun st =>
  match body st with
  | (st', Returned a) => (st', Returned a)
  | (st', Threw e) => handler e st'
  end.

(** ** Configuration ([ConfigManager], [src/config/index.ts]) *)

(** The values of the configuration object: tables, booleans, integers and
    strings, as [AppConfig] has them. *)
Inductive cfgval : Type :=
  | CBool (b : bool)
  | CNum (n : Z)
  | CStr (s : string)
  | CObj (fields : list (string * cfgval)).

Definition truthy (v : cfgval) : bool :=
  match v with
  | CBool b => b
  | CNum n => negb (n =? 0)
  | CStr s => truthy_string s
  | CObj _ => true
  end.

Fixpoint assoc {A} (k : string) (fields : list (string * A)) : option A :=
  match fields with
  | [] => None
  | (k', v) :: rest => if String.eqb k k' then Some v else assoc k rest
  end.

(** [v[key]]; [None] is [undefined].  Only own properties are looked up: none
    of the keys the program uses names an inherited property of a table. *)
Definition cfg_prop (v : cfgval) (key : string) : option cfgval :=
  match v with
  | CObj fields => assoc key fields
  | _ => None
  end.

Module ConfigManager.

(** [get(section?, key?)] on the field [config : AppConfig | null]; an
    omitted argument is [None]. *)
Definition get (config : option cfgval) (section key : option string)
  : outcome cfgval :=
  match config with
  | None => Threw "Configuration not loaded. Call load() first."
  | Some config =>
      match section with
      | None | Some EmptyString => Returned config
      | Some section =>
          match cfg_prop config section with
          | None => Threw ("Configuration section '" +:+ section +:+ "' not found")
          | Some sectionData =>
              if negb (truthy sectionData)
              then Threw ("Configuration section '" +:+ section +:+ "' not found")
              else
                match key with
                | None | Some EmptyString => Returned sectionData
                | Some key =>
                    match cfg_prop sectionData key with
                    | None => Threw ("Configuration key '" +:+ section +:+ "."
                                       +:+ key +:+ "' not found")
                    | Some value => Returned value
                    end
                end
          end
      end
  end.

(** The defaults of [validateConfig]. *)
Definition defaultConfig : cfgval :=
  CObj [ ("app", CObj [ ("debug", CBool false); ("port", CNum 3000) ]);
         ("github", CObj [ ("secret", CStr "") ]);
         ("discord", CObj [ ("webhook_url", CStr "") ]);
         ("events", CObj [ ("push", CBool true); ("issues", CBool true);
                           ("workflow_run", CBool true);
                           ("workflow_job", CBool true) ]);
         ("events_config",
          CObj [ ("push", CObj [ ("show_file_changes", CBool true);
                                 ("max_commits_shown", CNum 5);
                                 ("show_commit_details", CBool true);
                                 ("embed_color", CNum 0x00ff00) ]);
                 ("issues", CObj [ ("show_labels", CBool true);
                                   ("show_assignees", CBool true);
                                   ("embed_color", CNum 0xff9900) ]);
                 ("workflow_run", CObj [ ("show_duration", CBool true);
                                         ("show_conclusion", CBool true);
                                         ("embed_color", CNum 0x0099ff) ]);
                 ("workflow_job", CObj [ ("show_steps", CBool false);
                                         ("show_runner", CBool true);
                                         ("embed_color", CNum 0x6600cc) ]) ]) ].

End ConfigManager.

(** ** Payloads: the values [JSON.parse] returns *)

Inductive json : Type :=
  | JNull
  | JBool (b : bool)
  | JNum (n : Z)
  | JStr (s : string)
  | JArr (items : list json)
  | JObj (fields : list (string * json)).

(** Reading one property in a destructuring [const { key } = payload]:
    [null] cannot be destructured (a [TypeError]); a missing property is
    [undefined], here [None]. *)
Definition json_prop (payload : json) (key : string) : outcome (option json) :=
  match payload with
  | JNull => Threw "TypeError"
  | JObj fields => Returned (assoc key fields)
  | _ => Returned None
  end.

(** [v !== s] for a string literal [s]. *)
Definition strict_ne_string (v : option json) (s : string) : bool :=
  match v with
  | Some (JStr s') => negb (String.eqb s' s)
  | _ => true
  end.

(** ** Event handlers ([src/events/*.ts]) *)

(** The base class [Event] of [src/types]: what a handler's constructor
    passes to [super] and its [execute] method.  [St] is the state of the
    world the handler acts on. *)
Record Event (Payload St : Type) : Type := MkEvent {
  name : string;
  events : list string;
  execute : Payload -> SO St unit
}.
Arguments MkEvent {Payload St} name events execute.
Arguments name {Payload St} e.
Arguments events {Payload St} e.
Arguments execute {Payload St} e payload st.

(** The members of the enum [EventType] are GitHub's event names, the values
    of the [X-GitHub-Event] header. *)
Module EventType.
Definition PUSH : string := "push".
Definition ISSUES : string := "issues".
Definition WORKFLOW_RUN : string := "workflow_run".
Definition WORKFLOW_JOB : string := "workflow_job".
End EventType.

Section Handlers.

(** The message a handler builds, the argument of its one call of
    [Webhook.send], is formatting: titles, descriptions, fields and colours
    put together from the handler's section of the configuration and the
    payload, with the helpers of [Webhook] ([src/utils/webhook]).  Building it
    reads properties of the payload and may throw on a payload of the wrong
    shape.  The sink answers a message given the ones it was sent before. *)
Context {Embed : Type}.
Variable sink : list Embed -> Embed -> outcome unit.
Variable push_embed : cfgval -> json -> outcome Embed.
Variable workflow_run_embed : cfgval -> json -> outcome Embed.
Variable workflow_job_embed : cfgval -> json -> outcome Embed.

(** The process-wide [Config], read-only once loaded. *)
Variable Config : option cfgval.

(** [await Webhook.send(embed)]: the world of a handler is the list of
    messages handed to the sink so far. *)
Definition Webhook_send (embed : Embed) : SO (list Embed) unit :=
  fun sent => (sent ++ [embed], sink sent embed).

(** [PushEvent.execute], printed after [CryptoUtils] in
    [src/utils/crypto.ts], lines 65-136: the flag, the handler's section, the
    destructuring of the payload, the message (lines 74-135) and its
    sending. *)
Definition PushEvent_execute (payload : json) : SO (list Embed) unit :=
  enabled ← lift (ConfigManager.get Config (Some "events") (Some "push"));
  if negb (truthy enabled) then mret tt
  else
    config ← lift (ConfigManager.get Config (Some "events_config") (Some "push"));
    _ ← lift (json_prop payload "ref");
    embed ← lift (push_embed config payload);
    Webhook_send embed.

(** [WorkflowRunEvent.execute], [src/events/workflow-run.ts] lines 16-102:
    the flag, the handler's section, the destructuring of the payload, the
    test of [action], the message (lines 30-101) and its sending. *)
Definition WorkflowRunEvent_execute (payload : json) : SO (list Embed) unit :=
  enabled ← lift (ConfigManager.get Config (Some "events") (Some "workflow_run"));
  if negb (truthy enabled) then mret tt
  else
    config ← lift (ConfigManager.get Config (Some "events_config")
                     (Some "workflow_run"));
    action ← lift (json_prop payload "action");
    if strict_ne_string action "completed" then mret tt
    else
      embed ← lift (workflow_run_embed config payload);
      Webhook_send embed.

(** [WorkflowJobEvent.execute], [src/events/workflow-job.ts] lines 16-111,
    of the same shape. *)
Definition WorkflowJobEvent_execute (payload : json) : SO (list Embed) unit :=
  enabled ← lift (ConfigManager.get Config (Some "events") (Some "workflow_job"));
  if negb (truthy enabled) then mret tt
  else
    config ← lift (ConfigManager.get Config (Some "events_config")
                     (Some "workflow_job"));
    action ← lift (json_prop payload "action");
    if strict_ne_string action "completed" then mret tt
    else
      embed ← lift (workflow_job_embed config payload);
      Webhook_send embed.

Definition PushEvent : Event json (list Embed) :=
  MkEvent "PushEvent" [EventType.PUSH] PushEvent_execute.
Definition WorkflowRunEvent : Event json (list Embed) :=
  MkEvent "WorkflowRunEvent" [EventType.WORKFLOW_RUN] WorkflowRunEvent_execute.
Definition WorkflowJobEvent : Event json (list Embed) :=
  MkEvent "WorkflowJobEvent" [EventType.WORKFLOW_JOB] WorkflowJobEvent_execute.

End Handlers.

(** ** What the server does to the world besides answering

    Log lines carry the fixed part of their message; the debug line and the
    debug file carry the event type they are named after. *)

Inductive effect : Type :=
  | LogWarn (msg : string)
  | LogError (msg : string)
  | LogDebug (msg : string)
  | BunWrite (file : string)
  | Invoked (handler : string).

(** The world of a request: the state the handlers act on, and the record of
    log lines, debug files and handler invocations, oldest first. *)
Record world (St : Type) : Type := World {
  outside : St;
  trace : list effect
}.
Arguments World {St} outside trace.
Arguments outside {St} w.
Arguments trace {St} w.

Definition tell {St} (e : effect) : SO (world St) unit :=
  fun w => (World (outside w) (trace w ++ [e]), Returned tt).

(** The handlers invoked in a trace, in order. *)
Definition invocations (t : list effect) : list string :=
  omap (fun e => match e with Invoked h => Some h | _ => None end) t.

(** ** [EventManager] ([src/managers/event-manager.ts]) *)

Module EventManager.
Section EventManager.

Context {Payload St : Type}.

(** Modelled from the spec: the source of [eventManager.register] is not
    among the files; section 4.2: for each handler, for each of its
    subscribed event-type identifiers, the handler is appended to that
    event type's ordered list. *)
Definition register (handlers : list (Event Payload St))
    (index : gmap string (list (Event Payload St)))
  : gmap string (list (Event Payload St)) :=
  foldl (fun index handler =>
           foldl (fun index eventTypeId =>
                    <[eventTypeId := default [] (index !! eventTypeId) ++ [handler]]>
                      index)
                 index (events handler))
        index handlers.

(** Modelled from the spec: the lookup of section 4.2, the empty sequence
    when no handler subscribes to the type. *)
Definition lookup (index : gmap string (list (Event Payload St)))
    (eventTypeId : string) : list (Event Payload St) :=
  default [] (index !! eventTypeId).

(** One invocation of a handler's [execute], recorded in the trace. *)
Definition invoke (handler : Event Payload St) (payload : Payload)
  : SO (world St) unit :=
  fun w =>
    let '(st', o) := execute handler payload (outside w) in
    (World st' (trace w ++ [Invoked (name handler)]), o).

(** Modelled from the spec: the loop of [eventManager.emit], section 4.3
    rule 5: each handler in order, a failure caught and logged. *)
Fixpoint run (handlers : list (Event Payload St)) (payload : Payload)
  : SO (world St) unit :=
  match handlers with
  | [] => mret tt
  | handler :: rest =>
      try_catchSO (invoke handler payload)
                  (fun error => tell (LogError error));;
      run rest payload
  end.

(** Modelled from the spec: [eventManager.emit(eventType, payload)]. *)
Definition emit (index : gmap string (list (Event Payload St)))
    (eventTypeId : string) (payload : Payload) : SO (world St) unit :=
  run (lookup index eventTypeId) payload.

End EventManager.
End EventManager.

(** ** [WebhookServer] ([src/main.ts]) *)

(** What the server reads of a request: the path of its URL, its method, the
    three headers ([None] when [headers.get] returns [null]) and the text of
    its body. *)
Record Request : Type := MkRequest {
  pathname : string;
  method : string;
  content_type : option string;
  x_github_event : option string;
  x_hub_signature_256 : option string;
  text : string
}.

Record Response : Type := MkResponse {
  response_body : string;
  status : Z
}.

Module WebhookServer.
Section WebhookServer.

Context {Payload St : Type}.

(** [JSON.parse(body)]; [None] is a [SyntaxError]. *)
Variable JSON_parse : string -> option Payload.
(** The process-wide [Config] and the index of [eventManager]. *)
Variable Config : option cfgval.
Variable index : gmap string (list (Event Payload St)).
(** [this.secret] *)
Variable secret : string.

(** Lines 63-81: [Some response] when the request is turned away. *)
Definition check_signature (req : Request) : SO (world St) (option Response) :=
  if truthy_string secret then
    match x_hub_signature_256 req with
    | None | Some EmptyString =>
        tell (LogWarn "Missing signature header");;
        mret (Some (MkResponse "Missing signature" 401))
    | Some signature =>
        isValid ← lift (CryptoUtils.verifyGitHubSignature
                          signature (text req) secret);
        if negb isValid then
          tell (LogError "Invalid webhook signature");;
          mret (Some (MkResponse "Invalid signature" 401))
        else mret None
    end
  else mret None.

(** Lines 92-103: the debug log line and the debug file, whose write
    errors are ignored. *)
Definition debug_logging (eventType : string) : SO (world St) unit :=
  debug ← lift (ConfigManager.get Config (Some "app") (Some "debug"));
  if truthy debug then
    tell (LogDebug eventType);;
    tell (BunWrite eventType)
  else mret tt.

Definition handleGitHubWebhook (req : Request) : SO (world St) Response :=
  try_catchSO
    (if negb (bool_decide (content_type req = Some "application/json")) then
       tell (LogWarn "Invalid content type received");;
       mret (MkResponse "Invalid content type" 400)
     else
       match x_github_event req with
       | None | Some EmptyString =>
           tell (LogWarn "Missing X-GitHub-Event header");;
           mret (MkResponse "Missing event type" 400)
       | Some eventType =>
           rejected ← check_signature req;
           match rejected with
           | Some response => mret response
           | None =>
               match JSON_parse (text req) with
               | None =>
                   tell (LogError "Failed to parse JSON payload");;
                   mret (MkResponse "Invalid JSON" 400)
               | Some payload =>
                   debug_logging eventType;;
                   EventManager.emit index eventType payload;;
                   mret (MkResponse "OK" 202)
               end
           end
       end)
    (fun error =>
       tell (LogError ("Webhook processing failed: " +:+ error));;
       mret (MkResponse "Internal Server Error" 500)).

Definition handleRequest (req : Request) : SO (world St) Response :=
  if String.eqb (pathname req) "/health" then mret (MkResponse "OK" 200)
  else if String.eqb (pathname req) "/github" && String.eqb (method req) "POST"
  then handleGitHubWebhook req
  else mret (MkResponse "Not Found" 404).

End WebhookServer.
End WebhookServer.

(** ** Sample deliveries

    The handlers and requests of the specification's end-to-end scenarios:
    [H1] subscribes to "push" and always fails, [H2] subscribes to "push" and
    "issues" and leaves a note in the world. *)

Module Sample.

Definition H1 : Event json (list string) :=
  MkEvent "H1" ["push"%string] (fun _ => lift (Threw "H1 failed")).

Definition H2 : Event json (list string) :=
  MkEvent "H2" ["push"%string; "issues"%string]
    (fun _ notes => (notes ++ ["H2 ran"%string], Returned tt)).

Definition index : gmap string (list (Event json (list string))) :=
  EventManager.register [H1; H2] ∅.

(** A parser that knows the one body of the scenarios. *)
Definition JSON_parse (body : string) : option json :=
  if String.eqb body "{}" then Some (JObj []) else None.

Definition Config : option cfgval := Some ConfigManager.defaultConfig.

Definition push_request (contentType : string) (signature : option string)
  : Request :=
  MkRequest "/github" "POST" (Some contentType) (Some "push"%string) signature "{}".

Definition fresh : world (list string) := World [] [].

(** A configuration with every event type switched off. *)
Definition all_disabled : option cfgval :=
  Some (CObj [ ("events", CObj [ ("push", CBool false);
                                 ("workflow_run", CBool false);
                                 ("workflow_job", CBool false) ]) ]).

(** A sink that takes every message. *)
Definition sink (sent : list string) (embed : string) : outcome unit := Returned tt.

Definition embed (config : cfgval) (payload : json) : outcome string :=
  Returned "message"%string.

End Sample.

(** How often an event type occurs among a handler's subscriptions. *)
Definition subscriptions {Payload St : Type} (eventTypeId : string)
    (handler : Event Payload St) : nat :=
  length (filter (fun e => e = eventTypeId) (events handler)).

(** The cryptographic functions are run on concrete inputs only. *)
#[global] Arguments SHA256.sha256 : simpl never.
#[global] Arguments HMAC.hmac_sha256 : simpl never.
#[global] Arguments CryptoUtils.hexToBuffer : simpl never.
#[global] Arguments CryptoUtils.verifyGitHubSignature : simpl never.

(** Unfolding one step of a block. *)
Ltac run_block :=
  unfold mbind, SO_bind, mret, SO_ret, lift, tell, try_catchSO; cbn.

(** ** [ConfigManager]: validation and loading ([src/config], lines 25-42 and
    76-145)

    An object is the list of its own properties, each name once.  The
    configurations are those of tables, booleans, integers and strings. *)

(** [result[key] = value]: an existing property is overwritten in place, a new
    one comes last. *)
Fixpoint set_prop (key : string) (value : cfgval) (fields : list (string * cfgval))
  : list (string * cfgval) :=
  match fields with
  | [] => [(key, value)]
  | (k, x) :: rest =>
      if String.eqb key k then (k, value) :: rest
      else (k, x) :: set_prop key value rest
  end.

(** [{ ...target }]: the own properties of a table; a boolean and a number
    have none.  No string with characters is ever spread: the strings of
    the defaults are empty, hence replaced by [{}] before the call. *)
Definition spread (target : cfgval) : list (string * cfgval) :=
  match target with
  | CObj fields => fields
  | _ => []
  end.

(** [target[key] || {}] *)
Definition prop_or_empty (target : cfgval) (key : string) : cfgval :=
  match cfg_prop target key with
  | Some value => if truthy value then value else CObj []
  | None => CObj []
  end.

Module ConfigValidation.

(** The loop of lines 136-142 over the properties of the source, [merge]
    being the call of line 138. *)
Definition merge_props (merge : cfgval -> cfgval -> cfgval) (target : cfgval)
  : list (string * cfgval) -> list (string * cfgval) -> list (string * cfgval) :=
  fix loop (fields result : list (string * cfgval)) {struct fields} :=
    match fields with
    | [] => result
    | (key, value) :: rest =>
        loop rest
          (set_prop key
             match value with
             | CObj _ => merge (prop_or_empty target key) value
             | _ => value
             end result)
    end.

(** [deepMerge(target, source)], lines 133-145.  A table of the source is
    merged into what the target has under the same name, any other value
    replaces it.  Every call passes a table as [source]: the parsed file, or
    a value that the test of line 137 found to be one. *)
Fixpoint deepMerge (target source : cfgval) {struct source} : cfgval :=
  match source with
  | CObj fields => CObj (merge_props deepMerge target fields (spread target))
  | _ => CObj (spread target)
  end.

(** What the loop stores under [key] for the source's [value] (lines 138 and
    140). *)
Definition merged (target : cfgval) (key : string) (value : cfgval) : cfgval :=
  match value with
  | CObj _ => deepMerge (prop_or_empty target key) value
  | _ => value
  end.

(** [validateConfig(config)], lines 83-128. *)
Definition validateConfig (config : cfgval) : cfgval :=
  deepMerge ConfigManager.defaultConfig config.

End ConfigValidation.



Module ConfigLoading.
Section ConfigLoading.

(** The file system and the TOML parser: [existsSync], [readFileSync(path,
    "utf-8")], which may throw, and [TOML.parse], which throws on a syntax
    error and returns the properties of the top-level table otherwise. *)
Variable existsSync : string -> bool.
Variable readFileSync : string -> outcome string.
Variable TOML_parse : string -> outcome (list (string * cfgval)).




End ConfigLoading.


End ConfigLoading.

(** ** The text of a push message ([PushEvent.execute], lines 74-75 and
    129-133)

    Here every character of a [string] is one code unit, which is what
    [length] and [slice] count. *)

Module PushFormat.

(** Line 75: [ref.replace("refs/heads/", "")]. *)
Definition branch (ref : string) : string := String_replace ref "refs/heads/" "".

(** Line 131, between the code fences:
    [commit.message.slice(0, 50 - 3)] followed by the dots when
    [commit.message.length > 50]. *)
Definition commit_text (message : string) : string :=
  slice message 0 (50 - 3)
  +:+ (if (50 <? String.length message)%nat then "..." else "").

(** Line 132: [inline: commit.message.length < 50]. *)
Definition commit_inline (message : string) : bool :=
  (String.length message <? 50)%nat.

End PushFormat.

(** The digest in capitals, which [parseInt] reads as well. *)
Definition hex_char_upper (d : Z) : ascii :=
  ascii_of_nat (Z.to_nat (if d <? 10 then 48 + d else 55 + d)).

Definition hex_byte_upper (b : Z) : string :=
  String (hex_char_upper (b / 16)) (String (hex_char_upper (b mod 16)) EmptyString).

Fixpoint hex_encode_upper (bs : list Z) : string :=
  match bs with
  | [] => EmptyString
  | b :: rest => hex_byte_upper b +:+ hex_encode_upper rest
  end.

(** [s.includes(pat)] *)
Fixpoint contains (pat s : string) : bool :=
  String.prefix pat s
  || match s with
     | EmptyString => false
     | String _ rest => contains pat rest
     end.

(** * Properties *)

(** ** The platform primitives on known answers *)

(** FIPS 180-4's one-block test message and RFC 4231's test case 2. *)
Example sha256_abc :
  hex_encode (SHA256.sha256 (TextEncoder_encode "abc"))
  = "ba7816bf8f01cfea414140de5dae2223b00361a396177a9cb410ff61f20015ad"%string.
Proof. vm_compute. reflexivity. Qed.

Example hmac_sha256_rfc4231_2 :
  hex_encode (HMAC.hmac_sha256 (TextEncoder_encode "Jefe")
                (TextEncoder_encode "what do ya want for nothing?"))
  = "5bdcc146bf60754e6a042426089575c75a003f089d2739839dec58b964ec3843"%string.
Proof. vm_compute. reflexivity. Qed.

(** The example of GitHub's documentation on validating deliveries. *)
Example github_documented_signature :
  github_signature "Hello, World!" "It's a Secret to Everybody"
  = "sha256=757107ea0eb2509fc211221cce984b8a37570b6d7586c22c46f4379c8b043e17"%string.
Proof. vm_compute. reflexivity. Qed.

(** ** Strings *)

Lemma app_String (a : ascii) (s t : string) :
  String a s +:+ t = String a (s +:+ t).
Proof. reflexivity. Qed.

Lemma app_empty_r (s : string) : s +:+ "" = s.
Proof. induction s as [|a s IH]; [done|]. by rewrite app_String, IH. Qed.

Lemma string_app_assoc (s t u : string) : (s +:+ t) +:+ u = s +:+ (t +:+ u).
Proof. induction s as [|a s IH]; [done|]. by rewrite !app_String, IH. Qed.

Lemma length_string_app (s t : string) :
  String.length (s +:+ t) = (String.length s + String.length t)%nat.
Proof. induction s as [|a s IH]; [done|]. rewrite app_String. simpl. by rewrite IH. Qed.

Lemma substring_0_all (s : string) (n : nat) :
  (String.length s <= n)%nat -> substring 0 n s = s.
Proof.
  revert n. induction s as [|a s IH]; intros [|n] Hn; simpl in *; try done; try lia.
  f_equal. apply IH. lia.
Qed.

Lemma substring_skip (pre s : string) (n : nat) :
  substring (String.length pre) n (pre +:+ s) = substring 0 n s.
Proof. induction pre as [|a pre IH]; [done|]. rewrite app_String. simpl. exact IH. Qed.

(** The slice the loop of [hexToBuffer] reads at an even position. *)
Lemma slice_pair (pre : string) (a b : ascii) (rest : string) :
  slice (pre +:+ String a (String b rest)) (String.length pre) (String.length pre + 2)
  = String a (String b "").
Proof.
  unfold slice. replace (String.length pre + 2 - String.length pre)%nat with 2%nat by lia.
  rewrite substring_skip. simpl. by destruct rest.
Qed.

Lemma slice_last (pre : string) (a : ascii) :
  slice (pre +:+ String a "") (String.length pre) (String.length pre + 2)
  = String a "".
Proof.
  unfold slice. replace (String.length pre + 2 - String.length pre)%nat with 2%nat by lia.
  by rewrite substring_skip.
Qed.

(** A leading [sha256=] is what [replace] removes. *)
Lemma String_replace_prefix (s : string) :
  String_replace ("sha256=" +:+ s) "sha256=" "" = s.
Proof.
  rewrite !app_String. change ("" +:+ s) with s.
  simpl. rewrite substring_0_all by lia. by destruct s.
Qed.

Lemma prefix_occurs (pat s : string) :
  String.prefix pat s = true -> exists post, s = pat +:+ post.
Proof.
  revert s. induction pat as [|a pat IH]; intros s Hp.
  - by exists s.
  - destruct s as [|b s]; [done|]. simpl in Hp.
    destruct (ascii_dec a b) as [->|]; [|done].
    destruct (IH s Hp) as [post ->]. by exists post.
Qed.

(** Without an occurrence of the pattern, [replace] returns the string
    itself. *)
Lemma String_replace_absent (s pat rep : string) :
  ~ occurs pat s -> String_replace s pat rep = s.
Proof.
  induction s as [|c s IH]; intros Hno.
  - cbn [String_replace]. destruct (String.prefix pat "") eqn:Hp; [|reflexivity].
    destruct (prefix_occurs _ _ Hp) as [post Hpost].
    exfalso. apply Hno. by exists ""%string, post.
  - cbn [String_replace]. destruct (String.prefix pat (String c s)) eqn:Hp.
    + destruct (prefix_occurs _ _ Hp) as [post Hpost].
      exfalso. apply Hno. by exists ""%string, post.
    + f_equal. apply IH. intros (pre & post & ->).
      apply Hno. by exists (String c pre), post.
Qed.

(** ** [hexToBuffer] *)

Section HexToBuffer.
Import CryptoUtils.

Lemma hexToBuffer_loop_spec (fuel : nat) :
  forall (pre suf : string) (done : list Z),
    String.length pre = (2 * length done)%nat ->
    (String.length suf <= fuel)%nat ->
    hexToBuffer_loop fuel (pre +:+ suf) (String.length pre)
      (done ++ replicate (String.length suf / 2) 0)
    = done ++ decode_pairs suf.
Proof.
  induction fuel as [|fuel IH]; intros pre suf done Hpre Hfuel;
    assert (String.length pre / 2 = length done)%nat as Hdiv
      by (rewrite Hpre, Nat.mul_comm; apply Nat.div_mul; lia).
  - destruct suf; simpl in Hfuel; [|lia]. reflexivity.
  - destruct suf as [|a [|b rest]].
    + simpl. rewrite app_empty_r, Nat.ltb_irrefl. reflexivity.
    + cbn [hexToBuffer_loop]. rewrite length_string_app. simpl String.length.
      replace (String.length pre <? String.length pre + 1)%nat with true
        by (symmetry; apply Nat.ltb_lt; lia).
      rewrite slice_last. simpl replicate. simpl decode_pairs.
      rewrite list_insert_ge.
      2:{ rewrite Hdiv, length_app. simpl. lia. }
      destruct fuel as [|fuel']; [reflexivity|].
      cbn [hexToBuffer_loop]. rewrite length_string_app. simpl String.length.
      replace (String.length pre + 2 <? String.length pre + 1)%nat with false
        by (symmetry; apply Nat.ltb_ge; lia).
      reflexivity.
    + cbn [hexToBuffer_loop]. rewrite length_string_app. simpl String.length.
      replace (String.length pre <? String.length pre + S (S (String.length rest)))%nat
        with true by (symmetry; apply Nat.ltb_lt; lia).
      rewrite slice_pair.
      replace (S (S (String.length rest)) / 2)%nat
        with (S (String.length rest / 2)).
      2:{ replace (S (S (String.length rest))) with (1 * 2 + String.length rest)%nat by lia.
          rewrite Nat.div_add_l by lia. lia. }
      cbn [replicate].
      replace (String.length pre / 2)%nat with (length done + 0)%nat by lia.
      rewrite insert_app_r. simpl decode_pairs.
      change (<[0%nat:=?v]> (0 :: ?l)) with (v :: l).
      set (v := ToUint8 (parseInt (String a (String b "")) 16)).
      replace (pre +:+ String a (String b rest))
        with ((pre +:+ String a (String b "")) +:+ rest)
        by (rewrite string_app_assoc; reflexivity).
      replace (String.length pre + 2)%nat
        with (String.length (pre +:+ String a (String b ""))).
      2:{ rewrite length_string_app. reflexivity. }
      replace (done ++ v :: replicate (String.length rest / 2) 0)
        with ((done ++ [v]) ++ replicate (String.length rest / 2) 0)
        by (rewrite <- app_assoc; reflexivity).
      rewrite IH.
      * rewrite <- app_assoc. reflexivity.
      * rewrite length_string_app, length_app. simpl. lia.
      * simpl in Hfuel. lia.
Qed.

(** The loop, run as the source runs it, yields one byte per pair of
    characters; a last single character is written past the end of the
    array and so lost. *)
Lemma hexToBuffer_pairs (hex : string) : hexToBuffer hex = decode_pairs hex.
Proof.
  unfold hexToBuffer.
  exact (hexToBuffer_loop_spec (String.length hex) "" hex [] eq_refl (le_n _)).
Qed.

Lemma decode_pairs_ind (P : string -> Prop) :
  P ""%string ->
  (forall a, P (String a "")) ->
  (forall a b rest, P rest -> P (String a (String b rest))) ->
  forall s, P s.
Proof.
  intros H0 H1 H2.
  assert (forall s, P s /\ forall a, P (String a s)) as H.
  { induction s as [|b s [IH1 IH2]]; split; auto. }
  intros s. apply H.
Qed.

Lemma length_decode_pairs (hex : string) :
  length (decode_pairs hex) = (String.length hex / 2)%nat.
Proof.
  induction hex as [|a|a b rest IH] using decode_pairs_ind; [done..|].
  cbn [decode_pairs length String.length]. rewrite IH.
  replace (S (S (String.length rest))) with (1 * 2 + String.length rest)%nat by lia.
  rewrite Nat.div_add_l by lia. lia.
Qed.

(** Every stored element is a byte. *)
Lemma ToUint8_byte (v : option Z) : 0 <= ToUint8 v < 256.
Proof. destruct v as [n|]; simpl; [apply Z.mod_pos_bound|]; lia. Qed.

(** Two lowercase hexadecimal digits are read back as the byte they
    encode. *)
Lemma parseInt_hex_byte (b : Z) :
  0 <= b < 256 -> ToUint8 (parseInt (hex_byte b) 16) = b.
Proof.
  intros Hb.
  assert (forallb (fun n => ToUint8 (parseInt (hex_byte (Z.of_nat n)) 16)
                            =? Z.of_nat n) (seq 0 256) = true) as Hall
    by (vm_compute; reflexivity).
  rewrite List.forallb_forall in Hall.
  specialize (Hall (Z.to_nat b)). rewrite Z2Nat.id in Hall by lia.
  apply Z.eqb_eq, Hall, in_seq. lia.
Qed.

Lemma decode_pairs_hex_encode (bs : list Z) :
  Forall (fun b => 0 <= b < 256) bs -> decode_pairs (hex_encode bs) = bs.
Proof.
  induction 1 as [|b bs Hb _ IH]; [done|].
  cbn [hex_encode]. unfold hex_byte at 1. rewrite !app_String.
  change ("" +:+ hex_encode bs) with (hex_encode bs).
  cbn [decode_pairs]. change (String _ (String _ "")) with (hex_byte b).
  by rewrite parseInt_hex_byte, IH.
Qed.

Lemma length_hex_encode (bs : list Z) :
  String.length (hex_encode bs) = (2 * length bs)%nat.
Proof.
  induction bs as [|b bs IH]; [done|].
  cbn [hex_encode]. rewrite length_string_app, IH. simpl. lia.
Qed.

End HexToBuffer.

(** ** The digest is thirty-two bytes *)

Lemma land_255_byte (x : Z) : 0 <= Z.land x 255 < 256.
Proof.
  change 255 with (Z.ones 8). rewrite Z.land_ones by lia.
  apply Z.mod_pos_bound. lia.
Qed.

Lemma be32_bytes (x : Z) : Forall (fun b => 0 <= b < 256) (SHA256.be32 x).
Proof. unfold SHA256.be32. repeat constructor; apply land_255_byte. Qed.

Lemma sha256_bytes (msg : list Z) :
  Forall (fun b => 0 <= b < 256) (SHA256.sha256 msg).
Proof.
  unfold SHA256.sha256, SHA256.digest_bytes.
  rewrite !Forall_app. repeat split; apply be32_bytes.
Qed.

Lemma length_sha256 (msg : list Z) : length (SHA256.sha256 msg) = 32%nat.
Proof. reflexivity. Qed.

Lemma hmac_sha256_bytes (key msg : list Z) :
  Forall (fun b => 0 <= b < 256) (HMAC.hmac_sha256 key msg).
Proof. apply sha256_bytes. Qed.

Lemma length_hmac_sha256 (key msg : list Z) :
  length (HMAC.hmac_sha256 key msg) = 32%nat.
Proof. apply length_sha256. Qed.

(** ** [verifyGitHubSignature] *)

Section VerifyGitHubSignature.
Import CryptoUtils.

Lemma TextEncoder_encode_nil (s : string) : TextEncoder_encode s = [] -> s = ""%string.
Proof. by destruct s. Qed.

Lemma importKey_nonempty (s : string) :
  s <> ""%string -> importKey (TextEncoder_encode s) = Returned (TextEncoder_encode s).
Proof. by destruct s. Qed.

Lemma importKey_empty : importKey (TextEncoder_encode "") = Threw "DataError".
Proof. reflexivity. Qed.

(** What the function computes, with the loop and the [try]/[catch]
    resolved: the key must import, and the bytes decoded from the header
    must be the MAC. *)
Lemma verifyGitHubSignature_eq (signature payload secret : string) :
  verifyGitHubSignature signature payload secret
  = Returned
      (bool_decide (secret <> ""%string) &&
       bool_decide (HMAC.hmac_sha256 (TextEncoder_encode secret)
                      (TextEncoder_encode payload)
                    = decode_pairs (String_replace signature "sha256=" ""))).
Proof.
  unfold verifyGitHubSignature, signatureBuffer. rewrite hexToBuffer_pairs.
  destruct secret as [|c secret]; [reflexivity|].
  rewrite importKey_nonempty by done. reflexivity.
Qed.

Lemma verify_empty_signature (payload secret : string) :
  verifyGitHubSignature "" payload secret = Returned false.
Proof.
  rewrite verifyGitHubSignature_eq. cbn [String_replace String.prefix decode_pairs].
  rewrite (bool_decide_eq_false_2 (_ = [])), andb_false_r; [done|].
  intros Hmac. apply (f_equal length) in Hmac.
  by rewrite length_hmac_sha256 in Hmac.
Qed.

(** The signature buffer of the header GitHub sends is the MAC itself. *)
Lemma signatureBuffer_github_signature (body secret : string) :
  signatureBuffer (github_signature body secret)
  = HMAC.hmac_sha256 (TextEncoder_encode secret) (TextEncoder_encode body).
Proof.
  unfold signatureBuffer, github_signature.
  rewrite String_replace_prefix, hexToBuffer_pairs.
  apply decode_pairs_hex_encode, hmac_sha256_bytes.
Qed.

(** A header without [sha256=] anywhere is decoded as it is, and a header
    that begins with it is decoded without it. *)
Lemma signatureBuffer_without_prefix (signature : string) :
  ~ occurs "sha256=" signature -> signatureBuffer signature = hexToBuffer signature.
Proof. intros Hno. unfold signatureBuffer. by rewrite String_replace_absent. Qed.

Lemma signatureBuffer_with_prefix (hex : string) :
  signatureBuffer ("sha256=" +:+ hex) = hexToBuffer hex.
Proof. unfold signatureBuffer. by rewrite String_replace_prefix. Qed.

(** C1, as amended: for every body and every non-empty secret, [verify]
    called with [sha256=] followed by the lowercase hex encoding of
    HMAC-SHA256(secret, body), that body and that secret returns true. *)
Theorem verify_accepts_github_signature (body secret : string) :
  secret <> ""%string ->
  verifyGitHubSignature (github_signature body secret) body secret = Returned true.
Proof.
  intros Hsecret. unfold verifyGitHubSignature.
  rewrite signatureBuffer_github_signature, importKey_nonempty by done.
  cbn. by rewrite bool_decide_eq_true_2.
Qed.

Lemma verify_accepts_github_signature_witness :
  "secret"%string <> ""%string /\
  verifyGitHubSignature
    "sha256=88aab3ede8d3adf94d26ab90d3bafd4a2083070c3bcce9c014ee04a443847c0b"
    "hello" "secret" = Returned true.
Proof.
  split; [discriminate|].
  apply (verify_accepts_github_signature "hello" "secret"). discriminate.
Defined.

(** C1 as stated fails at the empty secret: the key import throws and the
    correctly signed delivery is turned away. *)
Lemma verify_rejects_under_empty_secret :
  github_signature "hello" ""
  = "sha256=4352b26e33fe0d769a8922a6ba29004109f01688e26acc9e6cb347e5a5afc4da"%string
  /\ verifyGitHubSignature (github_signature "hello" "") "hello" "" = Returned false.
Proof. split; vm_compute; reflexivity. Qed.

(** C2 as stated fails: a header with an odd number of hexadecimal digits
    (a valid one followed by one more digit), and a header with a
    character that is no hexadecimal digit (the last byte [0b] written
    [+b]), are both malformed and both accepted. *)
Lemma verify_accepts_malformed_headers :
  let odd_header :=
    "sha256=88aab3ede8d3adf94d26ab90d3bafd4a2083070c3bcce9c014ee04a443847c0b0"%string in
  let nonhex_header :=
    "sha256=88aab3ede8d3adf94d26ab90d3bafd4a2083070c3bcce9c014ee04a443847c+b"%string in
  (malformed odd_header = true /\
   verifyGitHubSignature odd_header "hello" "secret" = Returned true) /\
  (malformed nonhex_header = true /\
   verifyGitHubSignature nonhex_header "hello" "secret" = Returned true).
Proof. repeat split; vm_compute; reflexivity. Qed.

(** C2, as amended: for every signature header, malformed or not, and every
    body and secret, [verify] never raises to its caller but returns a
    boolean; a failed key import yields false; and the answer is false
    whenever the bytes decoded from the header are not the MAC, in
    particular whenever what is left of the header once [sha256=] is removed
    is not 64 or 65 characters long. *)
Theorem verify_never_raises (signature body secret : string) :
  (exists b, verifyGitHubSignature signature body secret = Returned b) /\
  (forall error, importKey (TextEncoder_encode secret) = Threw error ->
     verifyGitHubSignature signature body secret = Returned false) /\
  (signatureBuffer signature
     <> HMAC.hmac_sha256 (TextEncoder_encode secret) (TextEncoder_encode body) ->
   verifyGitHubSignature signature body secret = Returned false) /\
  ((String.length (String_replace signature "sha256=" "") / 2 <> 32)%nat ->
   verifyGitHubSignature signature body secret = Returned false).
Proof.
  assert (signatureBuffer signature
            <> HMAC.hmac_sha256 (TextEncoder_encode secret) (TextEncoder_encode body) ->
          verifyGitHubSignature signature body secret = Returned false) as Hne.
  { intros Hne. rewrite verifyGitHubSignature_eq.
    unfold signatureBuffer in Hne. rewrite hexToBuffer_pairs in Hne.
    rewrite (bool_decide_eq_false_2 (_ = _)) by congruence.
    by rewrite andb_false_r. }
  split; [rewrite verifyGitHubSignature_eq; eauto|].
  split; [|split; [exact Hne|]].
  - intros error Himport. unfold verifyGitHubSignature. by rewrite Himport.
  - intros Hlen. apply Hne. intros Heq.
    apply (f_equal length) in Heq.
    unfold signatureBuffer in Heq.
    rewrite hexToBuffer_pairs, length_decode_pairs, length_hmac_sha256 in Heq.
    contradiction.
Qed.

Lemma verify_never_raises_witness :
  verifyGitHubSignature "sha256=zz" "hello" "secret" = Returned false /\
  verifyGitHubSignature "sha256=zz" "hello" "" = Returned false.
Proof.
  split.
  - apply (verify_never_raises "sha256=zz" "hello" "secret"). vm_compute. lia.
  - apply (proj1 (proj2 (verify_never_raises "sha256=zz" "hello" "")) "DataError").
    reflexivity.
Defined.

(** C8: a header that does not begin with [sha256=] but contains it further
    on is not decoded in full: the inner [sha256=] is removed first.  The
    valid digest with [sha256=] after its first two digits is accepted,
    although the full string decodes to other bytes. *)
Theorem inner_prefix_is_removed :
  let header :=
    "88sha256=aab3ede8d3adf94d26ab90d3bafd4a2083070c3bcce9c014ee04a443847c0b"%string in
  String.prefix "sha256=" header = false /\
  signatureBuffer header <> hexToBuffer header /\
  signatureBuffer header
    = signatureBuffer
        "sha256=88aab3ede8d3adf94d26ab90d3bafd4a2083070c3bcce9c014ee04a443847c0b" /\
  verifyGitHubSignature header "hello" "secret" = Returned true.
Proof. repeat split; vm_compute; congruence. Qed.

End VerifyGitHubSignature.

(** ** Running blocks *)

Lemma invocations_app (t1 t2 : list effect) :
  invocations (t1 ++ t2) = invocations t1 ++ invocations t2.
Proof. unfold invocations. apply omap_app. Qed.

(** ** [EventManager] *)

Section EventManagerProperties.
Context {Payload St : Type}.
Implicit Types (handler : Event Payload St) (handlers : list (Event Payload St)).
Implicit Types (index : gmap string (list (Event Payload St))).

Lemma lookup_register_one index handler (ids : list string) (eventTypeId : string) :
  EventManager.lookup
    (foldl (fun index id =>
              <[id := default [] (index !! id) ++ [handler]]> index) index ids)
    eventTypeId
  = EventManager.lookup index eventTypeId
      ++ replicate (length (filter (fun e => e = eventTypeId) ids)) handler.
Proof.
  revert index. induction ids as [|id ids IH]; intros index.
  - simpl. by rewrite app_nil_r.
  - cbn [foldl]. rewrite IH. unfold EventManager.lookup.
    rewrite filter_cons. destruct (decide (id = eventTypeId)) as [->|Hne].
    + rewrite lookup_insert_eq. cbn. by rewrite <- app_assoc.
    + by rewrite lookup_insert_ne.
Qed.

(** The index after a registration: under every event type, what was there
    followed by the handlers subscribed to it, in registration order. *)
Lemma lookup_register handlers index (eventTypeId : string) :
  EventManager.lookup (EventManager.register handlers index) eventTypeId
  = EventManager.lookup index eventTypeId
      ++ flat_map (fun handler => replicate (subscriptions eventTypeId handler) handler)
           handlers.
Proof.
  unfold EventManager.register.
  revert index. induction handlers as [|handler handlers IH]; intros index.
  - simpl. by rewrite app_nil_r.
  - cbn [foldl flat_map]. rewrite IH, lookup_register_one.
    by rewrite <- app_assoc.
Qed.

Lemma lookup_empty_index (eventTypeId : string) :
  EventManager.lookup (∅ : gmap string (list (Event Payload St))) eventTypeId = [].
Proof. unfold EventManager.lookup. by rewrite lookup_empty. Qed.

Lemma filter_absent (x : string) (l : list string) :
  x ∉ l -> filter (fun e => e = x) l = [].
Proof.
  induction l as [|y l IH]; [done|]. intros Hx.
  rewrite not_elem_of_cons in Hx. destruct Hx as [Hxy Hx].
  rewrite filter_cons_False by congruence. auto.
Qed.

(** An event type nobody subscribed to has no handlers: the lookup is the
    empty sequence. *)
Lemma lookup_unsubscribed handlers (eventTypeId : string) :
  (forall handler, handler ∈ handlers -> eventTypeId ∉ events handler) ->
  EventManager.lookup (EventManager.register handlers ∅) eventTypeId = [].
Proof.
  intros Hnone. rewrite lookup_register, lookup_empty_index. simpl.
  induction handlers as [|handler handlers IH]; [done|].
  cbn [flat_map]. rewrite IH.
  2:{ intros h Hh. apply Hnone. by right. }
  rewrite app_nil_r. unfold subscriptions.
  rewrite filter_absent; [done|]. apply Hnone. by left.
Qed.

(** C7: after registering H1, subscribed to "push", then H2, subscribed to
    "push" and "issues", the lookup of "push" is [H1, H2] in that order, the
    lookup of "issues" is [H2], and the lookup of any other event type is
    the empty sequence. *)
Theorem lookup_after_registration (H1 H2 : Event Payload St) :
  events H1 = ["push"%string] ->
  events H2 = ["push"%string; "issues"%string] ->
  let index := EventManager.register [H1; H2] ∅ in
  EventManager.lookup index "push" = [H1; H2] /\
  EventManager.lookup index "issues" = [H2] /\
  forall eventTypeId : string,
    eventTypeId <> "push"%string -> eventTypeId <> "issues"%string ->
    EventManager.lookup index eventTypeId = [].
Proof.
  intros E1 E2 index. subst index. repeat split.
  - rewrite lookup_register, lookup_empty_index. cbn [flat_map].
    unfold subscriptions. rewrite E1, E2. reflexivity.
  - rewrite lookup_register, lookup_empty_index. cbn [flat_map].
    unfold subscriptions. rewrite E1, E2. reflexivity.
  - intros eventTypeId Hpush Hissues. apply lookup_unsubscribed.
    intros handler Hin. rewrite !elem_of_cons, elem_of_nil in Hin.
    destruct Hin as [->|[->|[]]]; rewrite ?E1, ?E2;
      rewrite !elem_of_cons, elem_of_nil; tauto.
Qed.

(** The loop of [emit]: every handler is invoked once, in order, whatever
    the handlers before it did; the loop itself never throws; the world is
    what the handlers made of it one after the other; and the trace gains
    nothing but the invocations and the log lines of the failures. *)
Lemma run_spec handlers (payload : Payload) :
  forall w : world St,
    (EventManager.run handlers payload w).2 = Returned tt /\
    invocations (trace (EventManager.run handlers payload w).1)
    = invocations (trace w) ++ map name handlers /\
    outside (EventManager.run handlers payload w).1
    = foldl (fun st handler => (execute handler payload st).1) (outside w) handlers.
Proof.
  induction handlers as [|handler handlers IH]; intros w.
  - cbn. by rewrite app_nil_r.
  - cbn [EventManager.run]. unfold EventManager.invoke. run_block.
    destruct (execute handler payload (outside w)) as [st' [[]|error]] eqn:Hexec;
      cbn;
      match goal with
      | |- context [EventManager.run handlers payload ?w1] =>
          destruct (IH w1) as (Ho & Hinv & Hout)
      end;
      rewrite Ho, Hinv, Hout; cbn; rewrite ?invocations_app; cbn;
      rewrite <- ?app_assoc; done.
Qed.

End EventManagerProperties.

(** ** [WebhookServer] *)

Section WebhookServerProperties.
Context {Payload St : Type}.
Variable JSON_parse : string -> option Payload.
Variable Config : option cfgval.
Variable index : gmap string (list (Event Payload St)).
Variable secret : string.


(** C6: whatever its other headers and its body, a request whose content type
    is not exactly [application/json] is answered 400; the handlers' world is
    left as it was and no handler is invoked.  The same holds at the entry
    point for a POST to [/github]. *)
Theorem wrong_content_type_is_bad_request (req : Request) (w : world St) :
  content_type req <> Some "application/json"%string ->
  (let '(w', response) :=
    WebhookServer.handleGitHubWebhook JSON_parse Config index secret req w in
   (exists body, response = Returned (MkResponse body 400)) /\
   outside w' = outside w /\
   invocations (trace w') = invocations (trace w)) /\
  (pathname req = "/github"%string -> method req = "POST"%string ->
   WebhookServer.handleRequest JSON_parse Config index secret req w
   = WebhookServer.handleGitHubWebhook JSON_parse Config index secret req w).
Proof.
  intros Hct. split.
  - unfold WebhookServer.handleGitHubWebhook.
    rewrite bool_decide_eq_false_2 by done. run_block.
    rewrite invocations_app, app_nil_r. eauto.
  - intros Hpath Hmethod. unfold WebhookServer.handleRequest.
    by rewrite Hpath, Hmethod.
Qed.

(** C3: with a secret configured, a request with the right content type and
    an event type is answered 401 when its signature header is absent, and
    when the header is there but the verification returns false; in both
    cases the handlers' world is left as it was and no handler is invoked. *)
Theorem unsigned_request_is_unauthorized
    (req : Request) (eventType : string) (w : world St) :
  content_type req = Some "application/json"%string ->
  x_github_event req = Some eventType -> eventType <> ""%string ->
  secret <> ""%string ->
  x_hub_signature_256 req = None \/
  (exists signature,
     x_hub_signature_256 req = Some signature /\
     CryptoUtils.verifyGitHubSignature signature (text req) secret = Returned false) ->
  let '(w', response) :=
    WebhookServer.handleGitHubWebhook JSON_parse Config index secret req w in
  (exists body, response = Returned (MkResponse body 401)) /\
  outside w' = outside w /\
  invocations (trace w') = invocations (trace w).
Proof.
  intros Hct Hevent Hne Hsecret Hsig.
  unfold WebhookServer.handleGitHubWebhook, WebhookServer.check_signature.
  rewrite bool_decide_eq_true_2, Hevent by done.
  destruct eventType as [|c eventType]; [done|].
  destruct secret as [|c' secret']; [done|]. cbn [negb truthy_string].
  destruct Hsig as [->|(signature & -> & Hverify)].
  - run_block. rewrite invocations_app, app_nil_r. eauto.
  - destruct signature as [|s signature].
    + run_block. rewrite invocations_app, app_nil_r. eauto.
    + run_block. rewrite Hverify. cbn.
      rewrite invocations_app, app_nil_r. eauto.
Qed.

(** What [debug_logging] leaves behind when the configuration answers. *)
Lemma debug_logging_spec (eventType : string) (debug : cfgval) (w : world St) :
  ConfigManager.get Config (Some "app"%string) (Some "debug"%string) = Returned debug ->
  let '(w', o) := WebhookServer.debug_logging Config eventType w in
  o = Returned tt /\ outside w' = outside w /\
  invocations (trace w') = invocations (trace w).
Proof.
  intros Hdebug. unfold WebhookServer.debug_logging. run_block.
  rewrite Hdebug. destruct (truthy debug); cbn;
    rewrite ?invocations_app, ?app_nil_r; done.
Qed.

(** C4: a delivery that passed the checks is answered 202 whatever its
    handlers do: each matched handler is invoked exactly once, in
    registration order, also after a handler that threw, and the world is
    what the handlers made of it one after the other. *)
Theorem handler_failure_is_isolated
    (req : Request) (eventType : string) (payload : Payload) (debug : cfgval)
    (w : world St) :
  content_type req = Some "application/json"%string ->
  x_github_event req = Some eventType -> eventType <> ""%string ->
  secret = ""%string \/
  (exists signature,
     x_hub_signature_256 req = Some signature /\
     CryptoUtils.verifyGitHubSignature signature (text req) secret = Returned true) ->
  JSON_parse (text req) = Some payload ->
  ConfigManager.get Config (Some "app"%string) (Some "debug"%string) = Returned debug ->
  let '(w', response) :=
    WebhookServer.handleGitHubWebhook JSON_parse Config index secret req w in
  response = Returned (MkResponse "OK" 202) /\
  invocations (trace w')
  = invocations (trace w) ++ map name (EventManager.lookup index eventType) /\
  outside w'
  = foldl (fun st handler => (execute handler payload st).1) (outside w)
      (EventManager.lookup index eventType).
Proof.
  intros Hct Hevent Hne Hsig Hparse Hdebug.
  unfold WebhookServer.handleGitHubWebhook.
  rewrite bool_decide_eq_true_2, Hevent by done.
  destruct eventType as [|c eventType]; [done|]. cbn [negb].
  set (et := String c eventType) in *.
  assert (WebhookServer.check_signature secret req w = (w, Returned None)) as Hcheck.
  { unfold WebhookServer.check_signature.
    destruct Hsig as [->|(signature & Hhdr & Hverify)]; [done|].
    destruct secret as [|c' secret']; [done|]. cbn [truthy_string].
    rewrite Hhdr. destruct signature as [|s signature].
    - by rewrite verify_empty_signature in Hverify.
    - run_block. by rewrite Hverify. }
  unfold try_catchSO, mbind, SO_bind at 1. rewrite Hcheck, Hparse.
  unfold mbind, SO_bind.
  pose proof (debug_logging_spec et debug w Hdebug) as Hdbg.
  destruct (WebhookServer.debug_logging Config et w) as [w1 o1].
  destruct Hdbg as (-> & Hout1 & Hinv1).
  unfold EventManager.emit.
  pose proof (run_spec (EventManager.lookup index et) payload w1) as Hrun.
  destruct (EventManager.run (EventManager.lookup index et) payload w1) as [w2 o2].
  cbn in Hrun. destruct Hrun as (-> & Hinv2 & Hout2). cbn.
  by rewrite Hinv2, Hout2, Hinv1, Hout1.
Qed.

End WebhookServerProperties.

(** ** The handlers *)

Section HandlerProperties.
Context {Embed : Type}.
Variable sink : list Embed -> Embed -> outcome unit.
Variable push_embed workflow_run_embed workflow_job_embed : cfgval -> json -> outcome Embed.
Variable Config : option cfgval.

(** C9: a handler whose event type is switched off in the configuration
    returns at once: the outcome is a plain return, no failure, and nothing is
    handed to the sink.  This holds for the push, the workflow-run and the
    workflow-job handler. *)
Theorem disabled_handler_is_noop (payload : json) (sent : list Embed) :
  (forall flag,
     ConfigManager.get Config (Some "events"%string) (Some "push"%string) = Returned flag ->
     truthy flag = false ->
     PushEvent_execute sink push_embed Config payload sent = (sent, Returned tt)) /\
  (forall flag,
     ConfigManager.get Config (Some "events"%string) (Some "workflow_run"%string)
     = Returned flag ->
     truthy flag = false ->
     WorkflowRunEvent_execute sink workflow_run_embed Config payload sent
     = (sent, Returned tt)) /\
  (forall flag,
     ConfigManager.get Config (Some "events"%string) (Some "workflow_job"%string)
     = Returned flag ->
     truthy flag = false ->
     WorkflowJobEvent_execute sink workflow_job_embed Config payload sent
     = (sent, Returned tt)).
Proof.
  repeat split; intros flag Hget Hflag;
    unfold PushEvent_execute, WorkflowRunEvent_execute, WorkflowJobEvent_execute;
    unfold mbind, SO_bind, lift; rewrite Hget, Hflag; reflexivity.
Qed.

(** C10: for a payload whose [action] is not the string "completed", the
    workflow-run handler and the workflow-job handler hand nothing to the
    sink, whatever the configuration; and under a configuration that has the
    handler's flag and its section, also with the flag on, [execute] returns
    normally. *)
Theorem not_completed_sends_nothing
    (payload : json) (action : option json) (sent : list Embed) :
  json_prop payload "action" = Returned action ->
  strict_ne_string action "completed" = true ->
  ((WorkflowRunEvent_execute sink workflow_run_embed Config payload sent).1 = sent /\
   (WorkflowJobEvent_execute sink workflow_job_embed Config payload sent).1 = sent) /\
  (forall flag config,
     ConfigManager.get Config (Some "events"%string) (Some "workflow_run"%string)
     = Returned flag ->
     ConfigManager.get Config (Some "events_config"%string) (Some "workflow_run"%string)
     = Returned config ->
     WorkflowRunEvent_execute sink workflow_run_embed Config payload sent
     = (sent, Returned tt)) /\
  (forall flag config,
     ConfigManager.get Config (Some "events"%string) (Some "workflow_job"%string)
     = Returned flag ->
     ConfigManager.get Config (Some "events_config"%string) (Some "workflow_job"%string)
     = Returned config ->
     WorkflowJobEvent_execute sink workflow_job_embed Config payload sent
     = (sent, Returned tt)).
Proof.
  intros Haction Hne.
  unfold WorkflowRunEvent_execute, WorkflowJobEvent_execute, mbind, SO_bind, lift.
  rewrite Haction, Hne. repeat split.
  - destruct (ConfigManager.get Config (Some "events"%string) (Some "workflow_run"%string))
      as [flag|]; [|done].
    destruct (truthy flag); [|done]. cbn [negb].
    by destruct (ConfigManager.get Config (Some "events_config"%string)
                   (Some "workflow_run"%string)).
  - destruct (ConfigManager.get Config (Some "events"%string) (Some "workflow_job"%string))
      as [flag|]; [|done].
    destruct (truthy flag); [|done]. cbn [negb].
    by destruct (ConfigManager.get Config (Some "events_config"%string)
                   (Some "workflow_job"%string)).
  - intros flag config -> ->. by destruct (truthy flag).
  - intros flag config -> ->. by destruct (truthy flag).
Qed.


End HandlerProperties.

(** ** The specification's scenarios, run *)

Section Scenarios.
Import Sample.

(** H1 then H2 registered: the index of the specification's example. *)
Lemma lookup_after_registration_witness :
  EventManager.lookup index "push" = [H1; H2] /\
  EventManager.lookup index "issues" = [H2] /\
  EventManager.lookup index "unknown" = [].
Proof.
  destruct (lookup_after_registration H1 H2 eq_refl eq_refl) as (Hpush & Hissues & Hother).
  split; [exact Hpush|]. split; [exact Hissues|].
  apply Hother; discriminate.
Defined.

(** Content type [text/plain]: 400, and nothing ran. *)
Lemma wrong_content_type_is_bad_request_witness :
  WebhookServer.handleGitHubWebhook JSON_parse Config index ""
    (push_request "text/plain" None) fresh
  = (World [] [LogWarn "Invalid content type received"],
     Returned (MkResponse "Invalid content type" 400)) /\
  exists body,
    (WebhookServer.handleGitHubWebhook JSON_parse Config index ""
       (push_request "text/plain" None) fresh).2
    = Returned (MkResponse body 400).
Proof.
  split; [reflexivity|].
  apply (wrong_content_type_is_bad_request JSON_parse Config index ""
           (push_request "text/plain" None) fresh).
  discriminate.
Defined.

(** A secret configured and no signature header: 401, and nothing ran. *)
Lemma unsigned_request_is_unauthorized_witness :
  WebhookServer.handleGitHubWebhook JSON_parse Config index "secret"
    (push_request "application/json" None) fresh
  = (World [] [LogWarn "Missing signature header"],
     Returned (MkResponse "Missing signature" 401)) /\
  exists body,
    (WebhookServer.handleGitHubWebhook JSON_parse Config index "secret"
       (push_request "application/json" None) fresh).2
    = Returned (MkResponse body 401).
Proof.
  split; [reflexivity|].
  apply (unsigned_request_is_unauthorized JSON_parse Config index "secret"
           (push_request "application/json" None) "push" fresh);
    try done; by left.
Defined.

(** No secret, a push: H1 fails, H2 still runs once, and the answer is 202. *)
Lemma handler_failure_is_isolated_witness :
  let '(w', response) :=
    WebhookServer.handleGitHubWebhook JSON_parse Config index ""
      (push_request "application/json" None) fresh in
  response = Returned (MkResponse "OK" 202) /\
  invocations (trace w') = ["H1"%string; "H2"%string] /\
  outside w' = ["H2 ran"%string].
Proof.
  apply (handler_failure_is_isolated JSON_parse Config index ""
           (push_request "application/json" None) "push" (JObj []) (CBool false) fresh);
    try done; by left.
Defined.

(** Every event type switched off: the three handlers return and send
    nothing. *)
Lemma disabled_handler_is_noop_witness :
  PushEvent_execute sink embed all_disabled (JObj []) [] = ([], Returned tt) /\
  WorkflowRunEvent_execute sink embed all_disabled (JObj []) [] = ([], Returned tt) /\
  WorkflowJobEvent_execute sink embed all_disabled (JObj []) [] = ([], Returned tt).
Proof.
  destruct (disabled_handler_is_noop sink embed embed embed all_disabled (JObj []) [])
    as (Hpush & Hrun & Hjob).
  split; [apply (Hpush (CBool false)); reflexivity|].
  split; [apply (Hrun (CBool false))|apply (Hjob (CBool false))]; reflexivity.
Defined.

(** A workflow run that was only requested, under the default configuration
    (everything enabled): nothing is sent. *)
Lemma not_completed_sends_nothing_witness :
  let payload := JObj [("action"%string, JStr "requested")] in
  WorkflowRunEvent_execute sink embed Config payload [] = ([], Returned tt) /\
  WorkflowJobEvent_execute sink embed Config payload [] = ([], Returned tt).
Proof.
  destruct (not_completed_sends_nothing sink embed embed Config
              (JObj [("action"%string, JStr "requested")])
              (Some (JStr "requested")) [] eq_refl eq_refl)
    as (_ & Hrun & Hjob).
  split.
  - apply (Hrun (CBool true)
             (CObj [ ("show_duration"%string, CBool true);
                     ("show_conclusion"%string, CBool true);
                     ("embed_color"%string, CNum 0x0099ff) ])); reflexivity.
  - apply (Hjob (CBool true)
             (CObj [ ("show_steps"%string, CBool false);
                     ("show_runner"%string, CBool true);
                     ("embed_color"%string, CNum 0x6600cc) ])); reflexivity.
Defined.

(** The same run once completed is sent: the sample handlers are not mute. *)
Example completed_run_example :
  WorkflowRunEvent_execute sink embed Config
    (JObj [("action"%string, JStr "completed")]) []
  = (["message"%string], Returned tt).
Proof. reflexivity. Qed.

(** The end-to-end scenario of a signed delivery: accepted with the right
    signature, turned away with a wrong one. *)
Example signed_delivery_example :
  (WebhookServer.handleGitHubWebhook JSON_parse Config index "s3cret"
     (push_request "application/json"
        (Some "sha256=adbde1ce40c89c14215687d5d762a47df6dfaefcfad61e2e86718ffc8498571b"%string))
     fresh).2
  = Returned (MkResponse "OK" 202) /\
  (WebhookServer.handleGitHubWebhook JSON_parse Config index "s3cret"
     (push_request "application/json"
        (Some "sha256=0dbde1ce40c89c14215687d5d762a47df6dfaefcfad61e2e86718ffc8498571b"%string))
     fresh).2
  = Returned (MkResponse "Invalid signature" 401).
Proof. split; vm_compute; reflexivity. Qed.

(** An error nobody expected, here a configuration that was never loaded, is
    answered 500 and no handler runs. *)
Example unloaded_config_example :
  WebhookServer.handleGitHubWebhook JSON_parse None index ""
    (push_request "application/json" None) fresh
  = (World [] [LogError "Webhook processing failed: Configuration not loaded. Call load() first."],
     Returned (MkResponse "Internal Server Error" 500)).
Proof. reflexivity. Qed.

End Scenarios.

(** * Further properties of the code *)

(** ** [hexToBuffer] on any string *)

Section HexToBufferMore.
Import CryptoUtils.

Lemma decode_pairs_bytes (hex : string) :
  Forall (fun b => 0 <= b < 256) (decode_pairs hex).
Proof.
  induction hex as [|a|a b rest IH] using decode_pairs_ind; cbn [decode_pairs];
    [constructor..|].
  constructor; [apply ToUint8_byte|exact IH].
Qed.

(** [hexToBuffer] never fails: for every string, hexadecimal or not, it
    returns half as many bytes as the string has characters, rounded down,
    and each of them is a byte. *)
Theorem hexToBuffer_length_and_range (hex : string) :
  length (hexToBuffer hex) = (String.length hex / 2)%nat /\
  Forall (fun b => 0 <= b < 256) (hexToBuffer hex).
Proof.
  rewrite hexToBuffer_pairs. split; [apply length_decode_pairs|apply decode_pairs_bytes].
Qed.

Lemma parseInt_hex_byte_upper (b : Z) :
  0 <= b < 256 -> ToUint8 (parseInt (hex_byte_upper b) 16) = b.
Proof.
  intros Hb.
  assert (forallb (fun n => ToUint8 (parseInt (hex_byte_upper (Z.of_nat n)) 16)
                            =? Z.of_nat n) (seq 0 256) = true) as Hall
    by (vm_compute; reflexivity).
  rewrite List.forallb_forall in Hall.
  specialize (Hall (Z.to_nat b)). rewrite Z2Nat.id in Hall by lia.
  apply Z.eqb_eq, Hall, in_seq. lia.
Qed.

Lemma decode_pairs_hex_encode_upper (bs : list Z) :
  Forall (fun b => 0 <= b < 256) bs -> decode_pairs (hex_encode_upper bs) = bs.
Proof.
  induction 1 as [|b bs Hb _ IH]; [done|].
  cbn [hex_encode_upper]. unfold hex_byte_upper at 1. rewrite !app_String.
  change ("" +:+ hex_encode_upper bs) with (hex_encode_upper bs).
  cbn [decode_pairs]. change (String _ (String _ "")) with (hex_byte_upper b).
  by rewrite parseInt_hex_byte_upper, IH.
Qed.

(** Decoding undoes encoding: the hexadecimal text of a byte sequence, in
    small letters or in capitals, is read back as that sequence. *)
Theorem hexToBuffer_hex_encode (bs : list Z) :
  Forall (fun b => 0 <= b < 256) bs ->
  hexToBuffer (hex_encode bs) = bs /\ hexToBuffer (hex_encode_upper bs) = bs.
Proof.
  intros Hbs. rewrite !hexToBuffer_pairs.
  split; [by apply decode_pairs_hex_encode|by apply decode_pairs_hex_encode_upper].
Qed.

Lemma hexToBuffer_hex_encode_witness :
  Forall (fun b => 0 <= b < 256) [0; 171; 255] /\
  hexToBuffer "00abff" = [0; 171; 255] /\ hexToBuffer "00ABFF" = [0; 171; 255].
Proof.
  assert (Forall (fun b => 0 <= b < 256) [0; 171; 255]) as Hbs
    by (repeat constructor; lia).
  split; [exact Hbs|]. exact (hexToBuffer_hex_encode [0; 171; 255] Hbs).
Defined.

End HexToBufferMore.

(** ** [verifyGitHubSignature] on well-formed headers *)

Section VerifyMore.
Import CryptoUtils.

Lemma String_replace_not_contains (s pat rep : string) :
  contains pat s = false -> String_replace s pat rep = s.
Proof.
  induction s as [|c s IH]; cbn [contains String_replace]; intros Hc;
    apply orb_false_iff in Hc as [Hp Hrest]; rewrite Hp; [done|].
  f_equal. by apply IH.
Qed.

(** A general form of [String_replace_prefix]: a leading pattern is what
    [replace] removes. *)
Lemma prefix_app (pat s : string) : String.prefix pat (pat +:+ s) = true.
Proof.
  induction pat as [|a pat IH]; [by destruct s|].
  rewrite app_String. simpl. destruct (ascii_dec a a); [exact IH|done].
Qed.

Lemma String_replace_leading (pat s : string) :
  String_replace (pat +:+ s) pat "" = s.
Proof.
  assert (String_replace (pat +:+ s) pat ""
          = "" +:+ substring (String.length pat) (String.length (pat +:+ s)) (pat +:+ s))
    as ->.
  { destruct (pat +:+ s) eqn:E; cbn [String_replace];
      rewrite <- E, prefix_app; reflexivity. }
  rewrite substring_skip, substring_0_all; [done|].
  rewrite length_string_app. lia.
Qed.

Lemma all_hex_no_sha256 (s : string) :
  all_hex s = true -> contains "sha256=" s = false.
Proof.
  induction s as [|c s IH]; [done|]. cbn [all_hex contains]. intros Hall.
  apply andb_true_iff in Hall as [Hc Hs]. rewrite (IH Hs), orb_false_r.
  change (String.prefix "sha256=" (String c s))
    with (if ascii_dec "s" c then String.prefix "ha256=" s else false).
  destruct (ascii_dec "s" c) as [<-|]; [|done].
  by vm_compute in Hc.
Qed.

Lemma all_hex_hex_byte (b : Z) : 0 <= b < 256 -> all_hex (hex_byte b) = true.
Proof.
  intros Hb.
  assert (forallb (fun n => all_hex (hex_byte (Z.of_nat n))) (seq 0 256) = true) as Hall
    by (vm_compute; reflexivity).
  rewrite List.forallb_forall in Hall.
  specialize (Hall (Z.to_nat b)). rewrite Z2Nat.id in Hall by lia.
  apply Hall, in_seq. lia.
Qed.

Lemma all_hex_hex_encode (bs : list Z) :
  Forall (fun b => 0 <= b < 256) bs -> all_hex (hex_encode bs) = true.
Proof.
  induction 1 as [|b bs Hb _ IH]; [done|].
  cbn [hex_encode]. pose proof (all_hex_hex_byte b Hb) as Hbyte.
  unfold hex_byte in *. rewrite !app_String.
  change ("" +:+ hex_encode bs) with (hex_encode bs).
  cbn [all_hex] in *. rewrite IH.
  apply andb_true_iff in Hbyte as [-> Hbyte].
  apply andb_true_iff in Hbyte as [-> _]. done.
Qed.

(** Tampering is detected: under a non-empty secret, a header made of
    [sha256=] and the hexadecimal text of a byte sequence is accepted exactly
    when these bytes are the MAC of the body. *)
Theorem verify_wellformed_header (bs : list Z) (body secret : string) :
  Forall (fun b => 0 <= b < 256) bs ->
  secret <> ""%string ->
  verifyGitHubSignature ("sha256=" +:+ hex_encode bs) body secret
  = Returned (bool_decide
                (bs = HMAC.hmac_sha256 (TextEncoder_encode secret)
                        (TextEncoder_encode body))).
Proof.
  intros Hbs Hsecret. rewrite verifyGitHubSignature_eq.
  rewrite String_replace_prefix, decode_pairs_hex_encode by done.
  rewrite (bool_decide_eq_true_2 (secret <> _)) by done. cbn [andb].
  f_equal. apply bool_decide_ext. split; congruence.
Qed.

Lemma verify_wellformed_header_witness :
  verifyGitHubSignature
    "sha256=88aab3ede8d3adf94d26ab90d3bafd4a2083070c3bcce9c014ee04a443847c0c"
    "hello" "secret" = Returned false.
Proof.
  change "sha256=88aab3ede8d3adf94d26ab90d3bafd4a2083070c3bcce9c014ee04a443847c0c"%string
    with ("sha256=" +:+
          hex_encode
            [136; 170; 179; 237; 232; 211; 173; 249; 77; 38; 171; 144; 211; 186;
             253; 74; 32; 131; 7; 12; 59; 204; 233; 192; 20; 238; 4; 164; 67;
             132; 124; 12]).
  rewrite verify_wellformed_header;
    [by vm_compute|repeat constructor; lia|discriminate].
Defined.

(** The prefix is optional: under a non-empty secret the bare hexadecimal
    digest, without [sha256=], is accepted as well. *)
Theorem verify_accepts_bare_digest (body secret : string) :
  secret <> ""%string ->
  verifyGitHubSignature
    (hex_encode (HMAC.hmac_sha256 (TextEncoder_encode secret) (TextEncoder_encode body)))
    body secret = Returned true.
Proof.
  intros Hsecret. rewrite verifyGitHubSignature_eq.
  rewrite String_replace_not_contains
    by apply all_hex_no_sha256, all_hex_hex_encode, hmac_sha256_bytes.
  rewrite decode_pairs_hex_encode by apply hmac_sha256_bytes.
  by rewrite !bool_decide_eq_true_2.
Qed.

Lemma verify_accepts_bare_digest_witness :
  "secret"%string <> ""%string /\
  verifyGitHubSignature
    "88aab3ede8d3adf94d26ab90d3bafd4a2083070c3bcce9c014ee04a443847c0b"
    "hello" "secret" = Returned true.
Proof.
  split; [discriminate|].
  apply (verify_accepts_bare_digest "hello" "secret"). discriminate.
Defined.

(** The digest is read without regard to case: under a non-empty secret the
    header with the digest in capitals is accepted. *)
Theorem verify_accepts_capitals (body secret : string) :
  secret <> ""%string ->
  verifyGitHubSignature
    ("sha256=" +:+
     hex_encode_upper
       (HMAC.hmac_sha256 (TextEncoder_encode secret) (TextEncoder_encode body)))
    body secret = Returned true.
Proof.
  intros Hsecret. rewrite verifyGitHubSignature_eq.
  rewrite String_replace_prefix, decode_pairs_hex_encode_upper
    by apply hmac_sha256_bytes.
  by rewrite !bool_decide_eq_true_2.
Qed.

Lemma verify_accepts_capitals_witness :
  "secret"%string <> ""%string /\
  verifyGitHubSignature
    "sha256=88AAB3EDE8D3ADF94D26AB90D3BAFD4A2083070C3BCCE9C014EE04A443847C0B"
    "hello" "secret" = Returned true.
Proof.
  split; [discriminate|].
  apply (verify_accepts_capitals "hello" "secret"). discriminate.
Defined.

End VerifyMore.

(** ** [handleGitHubWebhook] and [handleRequest] on the other paths *)

Section WebhookServerMore.
Context {Payload St : Type}.
Variable JSON_parse : string -> option Payload.
Variable Config : option cfgval.
Variable index : gmap string (list (Event Payload St)).
Variable secret : string.

(** A delivery without an event type, the header absent or empty, is
    answered 400 once its content type is right; the handlers' world is left
    as it was and no handler is invoked, whatever the signature and the
    body. *)
Theorem missing_event_type_is_bad_request (req : Request) (w : world St) :
  content_type req = Some "application/json"%string ->
  x_github_event req = None \/ x_github_event req = Some ""%string ->
  WebhookServer.handleGitHubWebhook JSON_parse Config index secret req w
  = (World (outside w) (trace w ++ [LogWarn "Missing X-GitHub-Event header"]),
     Returned (MkResponse "Missing event type" 400)).
Proof.
  intros Hct Hevent. unfold WebhookServer.handleGitHubWebhook.
  rewrite bool_decide_eq_true_2 by done.
  by destruct Hevent as [-> | ->].
Qed.

(** What the signature check lets through: with no secret every request,
    with a secret the ones whose header verifies; the world is not
    touched. *)
Lemma check_signature_passes (req : Request) (w : world St) :
  secret = ""%string \/
  (exists signature,
     x_hub_signature_256 req = Some signature /\
     CryptoUtils.verifyGitHubSignature signature (text req) secret = Returned true) ->
  WebhookServer.check_signature secret req w = (w, Returned None).
Proof.
  intros Hsig. unfold WebhookServer.check_signature.
  destruct Hsig as [->|(signature & Hhdr & Hverify)]; [done|].
  destruct secret as [|c' secret']; [done|]. cbn [truthy_string].
  rewrite Hhdr. destruct signature as [|s signature].
  - by rewrite verify_empty_signature in Hverify.
  - run_block. by rewrite Hverify.
Qed.

(** A body that is no JSON is answered 400 after the signature was checked:
    the failure is logged, the handlers' world is left as it was and no
    handler is invoked. *)
Theorem malformed_json_is_bad_request
    (req : Request) (eventType : string) (w : world St) :
  content_type req = Some "application/json"%string ->
  x_github_event req = Some eventType -> eventType <> ""%string ->
  secret = ""%string \/
  (exists signature,
     x_hub_signature_256 req = Some signature /\
     CryptoUtils.verifyGitHubSignature signature (text req) secret = Returned true) ->
  JSON_parse (text req) = None ->
  WebhookServer.handleGitHubWebhook JSON_parse Config index secret req w
  = (World (outside w) (trace w ++ [LogError "Failed to parse JSON payload"]),
     Returned (MkResponse "Invalid JSON" 400)).
Proof.
  intros Hct Hevent Hne Hsig Hparse. unfold WebhookServer.handleGitHubWebhook.
  rewrite bool_decide_eq_true_2, Hevent by done.
  destruct eventType as [|c eventType]; [done|]. cbn [negb].
  unfold try_catchSO, mbind, SO_bind at 1.
  rewrite (check_signature_passes req w Hsig), Hparse. reflexivity.
Qed.

(** With no secret configured the signature header is not looked at: two
    requests that differ in it alone are treated alike. *)
Theorem no_secret_ignores_signature
    (req : Request) (signature : option string) (w : world St) :
  secret = ""%string ->
  WebhookServer.handleGitHubWebhook JSON_parse Config index secret
    (MkRequest (pathname req) (method req) (content_type req) (x_github_event req)
       signature (text req)) w
  = WebhookServer.handleGitHubWebhook JSON_parse Config index secret req w.
Proof.
  intros ->. unfold WebhookServer.handleGitHubWebhook, WebhookServer.check_signature.
  reflexivity.
Qed.

(** A delivery signed by the sender passes the check under any non-empty
    secret, silently: nothing is logged and the request goes on to the
    parser. *)
Theorem signed_delivery_passes_check (req : Request) (w : world St) :
  secret <> ""%string ->
  x_hub_signature_256 req = Some (github_signature (text req) secret) ->
  WebhookServer.check_signature secret req w = (w, Returned None).
Proof.
  intros Hsecret Hhdr. apply check_signature_passes. right.
  exists (github_signature (text req) secret). split; [exact Hhdr|].
  unfold CryptoUtils.verifyGitHubSignature.
  rewrite signatureBuffer_github_signature, importKey_nonempty by done.
  cbn. by rewrite bool_decide_eq_true_2.
Qed.


Lemma check_signature_status (req : Request) (w w' : world St) (response : Response) :
  WebhookServer.check_signature secret req w = (w', Returned (Some response)) ->
  status response = 401.
Proof.
  unfold WebhookServer.check_signature.
  destruct (truthy_string secret); [|done].
  destruct (x_hub_signature_256 req) as [[|c signature]|];
    try (run_block; intros [= _ <-]; reflexivity).
  unfold mbind, SO_bind, lift.
  destruct (CryptoUtils.verifyGitHubSignature _ _ _) as [[]|]; run_block;
    try done. by intros [= _ <-].
Qed.

Lemma check_signature_returns (req : Request) (w : world St) :
  exists w' rejected,
    WebhookServer.check_signature secret req w = (w', Returned rejected).
Proof.
  unfold WebhookServer.check_signature.
  destruct (truthy_string secret); [|by eauto].
  destruct (x_hub_signature_256 req) as [[|c signature]|]; try (run_block; by eauto).
  rewrite verifyGitHubSignature_eq. run_block.
  destruct (_ && _); cbn; eauto.
Qed.

(** The entry point never fails: whatever the request, the handlers and the
    configuration do, [handleRequest] answers, and with one of the six
    statuses 200, 202, 400, 401, 404 and 500. *)
Theorem handleRequest_always_answers (req : Request) (w : world St) :
  exists w' response,
    WebhookServer.handleRequest JSON_parse Config index secret req w
    = (w', Returned response) /\
    status response ∈ [200; 202; 400; 401; 404; 500].
Proof.
  unfold WebhookServer.handleRequest.
  destruct (String.eqb (pathname req) "/health").
  { eexists _, _. split; [reflexivity|]. cbn. set_solver. }
  destruct (_ && _).
  2:{ eexists _, _. split; [reflexivity|]. cbn. set_solver. }
  unfold WebhookServer.handleGitHubWebhook, try_catchSO.
  destruct (negb (bool_decide (content_type req = Some "application/json"%string))).
  { eexists _, _. split; [reflexivity|]. cbn. set_solver. }
  destruct (x_github_event req) as [[|c eventType]|].
  1,3: eexists _, _; (split; [reflexivity|]); cbn; set_solver.
  unfold mbind, SO_bind at 1.
  destruct (check_signature_returns req w) as (w1 & rejected & Hcheck).
  rewrite Hcheck. destruct rejected as [response|].
  { eexists _, _. split; [reflexivity|].
    rewrite (check_signature_status _ _ _ _ Hcheck). set_solver. }
  destruct (JSON_parse (text req)) as [payload|].
  2:{ eexists _, _. split; [reflexivity|]. cbn. set_solver. }
  unfold mbind, SO_bind.
  destruct (WebhookServer.debug_logging Config _ w1) as [w2 [[]|error]].
  2:{ eexists _, _. split; [reflexivity|]. cbn. set_solver. }
  destruct (EventManager.emit index _ payload w2) as [w3 [[]|error]];
    eexists _, _; (split; [reflexivity|]); cbn; set_solver.
Qed.

End WebhookServerMore.

(** ** Validation and loading of the configuration *)

Section ConfigValidationProperties.
Import ConfigValidation.

Lemma assoc_set_prop_eq (key : string) (value : cfgval) (fields : list (string * cfgval)) :
  assoc key (set_prop key value fields) = Some value.
Proof.
  induction fields as [|[k x] fields IH]; cbn [set_prop assoc].
  - by rewrite String.eqb_refl.
  - destruct (String.eqb key k) eqn:E; cbn [assoc]; rewrite E; [done|exact IH].
Qed.

Lemma assoc_set_prop_ne (key key' : string) (value : cfgval)
    (fields : list (string * cfgval)) :
  key <> key' -> assoc key' (set_prop key value fields) = assoc key' fields.
Proof.
  intros Hne. induction fields as [|[k x] fields IH]; cbn [set_prop assoc].
  - by rewrite (proj2 (String.eqb_neq key' key)).
  - destruct (String.eqb key k) eqn:E; cbn [assoc].
    + apply String.eqb_eq in E as <-.
      by rewrite (proj2 (String.eqb_neq key' key)).
    + by rewrite IH.
Qed.

Lemma assoc_None_not_in {A} (key : string) (fields : list (string * A)) :
  key ∉ map fst fields -> assoc key fields = None.
Proof.
  induction fields as [|[k x] fields IH]; [done|]. cbn [map fst assoc].
  rewrite not_elem_of_cons. intros [Hne Hnot].
  rewrite (proj2 (String.eqb_neq key k)) by done. auto.
Qed.

Lemma merge_props_lookup (target : cfgval) (fields result : list (string * cfgval))
    (key : string) :
  NoDup (map fst fields) ->
  assoc key (merge_props deepMerge target fields result)
  = match assoc key fields with
    | Some value => Some (merged target key value)
    | None => assoc key result
    end.
Proof.
  revert result. induction fields as [|[k v] fields IH]; intros result Hnodup; [done|].
  cbn [map fst] in Hnodup. apply NoDup_cons in Hnodup as [Hk Hnodup].
  cbn [merge_props assoc]. rewrite IH by done.
  destruct (String.eqb key k) eqn:E.
  - apply String.eqb_eq in E as ->. rewrite (assoc_None_not_in k fields Hk).
    by rewrite assoc_set_prop_eq.
  - apply String.eqb_neq in E. destruct (assoc key fields); [done|].
    by rewrite assoc_set_prop_ne.
Qed.

(** A property of the validated configuration: the user's, merged, when the
    file has one of that name, the default otherwise. *)
Lemma validateConfig_prop (user : list (string * cfgval)) (section : string) :
  NoDup (map fst user) ->
  cfg_prop (validateConfig (CObj user)) section
  = match assoc section user with
    | Some value => Some (merged ConfigManager.defaultConfig section value)
    | None => cfg_prop ConfigManager.defaultConfig section
    end.
Proof.
  intros Hnodup. unfold validateConfig. cbn [deepMerge cfg_prop].
  by rewrite merge_props_lookup.
Qed.



(** What a successful [get] of a section and a key says about the
    configuration. *)
Lemma get_Returned (config : cfgval) (section key : string) (value : cfgval) :
  section <> ""%string -> key <> ""%string ->
  ConfigManager.get (Some config) (Some section) (Some key) = Returned value <->
  exists fields,
    cfg_prop config section = Some (CObj fields) /\ assoc key fields = Some value.
Proof.
  intros Hs Hk. unfold ConfigManager.get.
  destruct section as [|c section]; [done|]. destruct key as [|c' key]; [done|].
  split.
  - destruct (cfg_prop config (String c section)) as [sectionData|]; [|done].
    destruct (truthy sectionData); [|done]. cbn [negb].
    destruct sectionData as [| | |fields]; cbn [cfg_prop]; try done.
    destruct (assoc (String c' key) fields) eqn:E; [|done].
    intros [= <-]. eauto.
  - intros (fields & -> & Hkey). cbn [truthy negb cfg_prop]. by rewrite Hkey.
Qed.

(** The defaults stay: where the file has no entry of that name, or a table
    without that key, [get] returns after validation what it returns on the
    defaults. *)
Theorem validated_get_default
    (user : list (string * cfgval)) (section key : string) (value : cfgval) :
  NoDup (map fst user) ->
  section <> ""%string -> key <> ""%string ->
  ConfigManager.get (Some ConfigManager.defaultConfig) (Some section) (Some key)
  = Returned value ->
  assoc section user = None \/
  (exists fields,
     assoc section user = Some (CObj fields) /\ NoDup (map fst fields) /\
     assoc key fields = None) ->
  ConfigManager.get (Some (validateConfig (CObj user))) (Some section) (Some key)
  = Returned value.
Proof.
  intros Huser Hs Hk Hdefault Hfile.
  apply get_Returned in Hdefault as (ds & Hsection & Hkey); [|done..].
  apply get_Returned; [done..|]. rewrite validateConfig_prop by done.
  destruct Hfile as [->|(fields & -> & Hfields & Hnone)].
  - eauto.
  - cbn [merged]. unfold prop_or_empty. rewrite Hsection. cbn [truthy].
    cbn [deepMerge]. eexists. split; [reflexivity|].
    rewrite merge_props_lookup, Hnone by done. exact Hkey.
Qed.

(** Nothing the program reads can go missing: whatever the file puts into
    its tables, every setting that [get] finds in the defaults it finds
    after validation too, provided the file gives the section as a table or
    not at all. *)
Theorem validated_get_is_defined
    (user : list (string * cfgval)) (section key : string) (value : cfgval) :
  NoDup (map fst user) ->
  section <> ""%string -> key <> ""%string ->
  ConfigManager.get (Some ConfigManager.defaultConfig) (Some section) (Some key)
  = Returned value ->
  assoc section user = None \/
  (exists fields, assoc section user = Some (CObj fields) /\ NoDup (map fst fields)) ->
  exists value',
    ConfigManager.get (Some (validateConfig (CObj user))) (Some section) (Some key)
    = Returned value'.
Proof.
  intros Huser Hs Hk Hdefault Hfile.
  apply get_Returned in Hdefault as (ds & Hsection & Hkey); [|done..].
  setoid_rewrite get_Returned; [|done..]. setoid_rewrite validateConfig_prop; [|done].
  destruct Hfile as [->|(fields & -> & Hfields)]; [eauto|].
  cbn [merged]. unfold prop_or_empty. rewrite Hsection. cbn [truthy deepMerge].
  destruct (assoc key fields) as [v|] eqn:Hv.
  - eexists _, _. split; [reflexivity|]. by rewrite merge_props_lookup, Hv.
  - eexists _, _. split; [reflexivity|]. rewrite merge_props_lookup, Hv by done.
    exact Hkey.
Qed.


End ConfigValidationProperties.

Section ConfigLoadingProperties.
Import ConfigLoading.
Variable existsSync : string -> bool.
Variable readFileSync : string -> outcome string.
Variable TOML_parse : string -> outcome (list (string * cfgval)).



End ConfigLoadingProperties.

(** ** What the handlers hand to the sink *)

Section HandlerMore.
Context {Embed : Type}.
Variable sink : list Embed -> Embed -> outcome unit.
Variable push_embed workflow_run_embed workflow_job_embed : cfgval -> json -> outcome Embed.
Variable Config : option cfgval.

Lemma app_singleton_ne {A} (l : list A) (x : A) : l ++ [x] <> l.
Proof.
  intros H. apply (f_equal length) in H. rewrite length_app in H. simpl in H. lia.
Qed.

Lemma strict_ne_string_false (v : option json) (s : string) :
  strict_ne_string v s = false -> v = Some (JStr s).
Proof.
  destruct v as [[]|]; cbn; try done.
  intros H. apply negb_false_iff, String.eqb_eq in H. by subst.
Qed.

(** One execution hands at most one message to the sink, whatever the
    configuration, the payload and the sink's answer, and takes back none of
    the earlier ones. *)
Theorem execute_sends_at_most_once (payload : json) (sent : list Embed) :
  ((PushEvent_execute sink push_embed Config payload sent).1 = sent \/
   exists embed,
     (PushEvent_execute sink push_embed Config payload sent).1 = sent ++ [embed]) /\
  ((WorkflowRunEvent_execute sink workflow_run_embed Config payload sent).1 = sent \/
   exists embed,
     (WorkflowRunEvent_execute sink workflow_run_embed Config payload sent).1
     = sent ++ [embed]) /\
  ((WorkflowJobEvent_execute sink workflow_job_embed Config payload sent).1 = sent \/
   exists embed,
     (WorkflowJobEvent_execute sink workflow_job_embed Config payload sent).1
     = sent ++ [embed]).
Proof.
  unfold PushEvent_execute, WorkflowRunEvent_execute, WorkflowJobEvent_execute,
    mbind, SO_bind, lift, Webhook_send, mret, SO_ret.
  repeat split.
  - destruct (ConfigManager.get Config _ (Some "push"%string)) as [flag|]; [|by left].
    destruct (truthy flag); [|by left]. cbn [negb].
    destruct (ConfigManager.get Config _ _) as [config|]; [|by left].
    destruct (json_prop payload "ref"); [|by left].
    destruct (push_embed config payload) as [embed|]; [|by left].
    right. by exists embed.
  - destruct (ConfigManager.get Config _ (Some "workflow_run"%string)) as [flag|];
      [|by left].
    destruct (truthy flag); [|by left]. cbn [negb].
    destruct (ConfigManager.get Config _ _) as [config|]; [|by left].
    destruct (json_prop payload "action") as [action|]; [|by left].
    destruct (strict_ne_string action "completed"); [by left|].
    destruct (workflow_run_embed config payload) as [embed|]; [|by left].
    right. by exists embed.
  - destruct (ConfigManager.get Config _ (Some "workflow_job"%string)) as [flag|];
      [|by left].
    destruct (truthy flag); [|by left]. cbn [negb].
    destruct (ConfigManager.get Config _ _) as [config|]; [|by left].
    destruct (json_prop payload "action") as [action|]; [|by left].
    destruct (strict_ne_string action "completed"); [by left|].
    destruct (workflow_job_embed config payload) as [embed|]; [|by left].
    right. by exists embed.
Qed.

(** Nothing is sent behind the configuration's back: a message that a
    workflow handler hands to the sink is the one built from the handler's
    own section and this payload, the handler's flag is on and the payload's
    action is "completed". *)
Theorem workflow_message_sent_only_when_due
    (payload : json) (sent : list Embed) (embed : Embed) :
  ((WorkflowRunEvent_execute sink workflow_run_embed Config payload sent).1
   = sent ++ [embed] ->
   exists flag config,
     ConfigManager.get Config (Some "events"%string) (Some "workflow_run"%string)
     = Returned flag /\ truthy flag = true /\
     ConfigManager.get Config (Some "events_config"%string) (Some "workflow_run"%string)
     = Returned config /\
     json_prop payload "action" = Returned (Some (JStr "completed")) /\
     workflow_run_embed config payload = Returned embed) /\
  ((WorkflowJobEvent_execute sink workflow_job_embed Config payload sent).1
   = sent ++ [embed] ->
   exists flag config,
     ConfigManager.get Config (Some "events"%string) (Some "workflow_job"%string)
     = Returned flag /\ truthy flag = true /\
     ConfigManager.get Config (Some "events_config"%string) (Some "workflow_job"%string)
     = Returned config /\
     json_prop payload "action" = Returned (Some (JStr "completed")) /\
     workflow_job_embed config payload = Returned embed).
Proof.
  unfold WorkflowRunEvent_execute, WorkflowJobEvent_execute,
    mbind, SO_bind, lift, Webhook_send, mret, SO_ret.
  split.
  - destruct (ConfigManager.get Config _ (Some "workflow_run"%string)) as [flag|];
      [|by intros ?%symmetry%app_singleton_ne].
    destruct (truthy flag) eqn:Hflag; [|by intros ?%symmetry%app_singleton_ne].
    cbn [negb].
    destruct (ConfigManager.get Config _ _) as [config|];
      [|by intros ?%symmetry%app_singleton_ne].
    destruct (json_prop payload "action") as [action|];
      [|by intros ?%symmetry%app_singleton_ne].
    destruct (strict_ne_string action "completed") eqn:Haction;
      [by intros ?%symmetry%app_singleton_ne|].
    apply strict_ne_string_false in Haction as ->.
    destruct (workflow_run_embed config payload) as [embed'|] eqn:Hembed;
      [|by intros ?%symmetry%app_singleton_ne].
    cbn. intros [_ [= ->]]%app_inj_tail. exists flag, config. repeat split; done.
  - destruct (ConfigManager.get Config _ (Some "workflow_job"%string)) as [flag|];
      [|by intros ?%symmetry%app_singleton_ne].
    destruct (truthy flag) eqn:Hflag; [|by intros ?%symmetry%app_singleton_ne].
    cbn [negb].
    destruct (ConfigManager.get Config _ _) as [config|];
      [|by intros ?%symmetry%app_singleton_ne].
    destruct (json_prop payload "action") as [action|];
      [|by intros ?%symmetry%app_singleton_ne].
    destruct (strict_ne_string action "completed") eqn:Haction;
      [by intros ?%symmetry%app_singleton_ne|].
    apply strict_ne_string_false in Haction as ->.
    destruct (workflow_job_embed config payload) as [embed'|] eqn:Hembed;
      [|by intros ?%symmetry%app_singleton_ne].
    cbn. intros [_ [= ->]]%app_inj_tail. exists flag, config. repeat split; done.
Qed.

(** A delivery whose body is the JSON [null] makes an enabled handler fail
    at the destructuring, before anything is built or sent. *)
Theorem null_payload_fails_before_sending (sent : list Embed) :
  (forall flag config,
     ConfigManager.get Config (Some "events"%string) (Some "push"%string)
     = Returned flag -> truthy flag = true ->
     ConfigManager.get Config (Some "events_config"%string) (Some "push"%string)
     = Returned config ->
     PushEvent_execute sink push_embed Config JNull sent = (sent, Threw "TypeError")) /\
  (forall flag config,
     ConfigManager.get Config (Some "events"%string) (Some "workflow_run"%string)
     = Returned flag -> truthy flag = true ->
     ConfigManager.get Config (Some "events_config"%string) (Some "workflow_run"%string)
     = Returned config ->
     WorkflowRunEvent_execute sink workflow_run_embed Config JNull sent
     = (sent, Threw "TypeError")) /\
  (forall flag config,
     ConfigManager.get Config (Some "events"%string) (Some "workflow_job"%string)
     = Returned flag -> truthy flag = true ->
     ConfigManager.get Config (Some "events_config"%string) (Some "workflow_job"%string)
     = Returned config ->
     WorkflowJobEvent_execute sink workflow_job_embed Config JNull sent
     = (sent, Threw "TypeError")).
Proof.
  unfold PushEvent_execute, WorkflowRunEvent_execute, WorkflowJobEvent_execute,
    mbind, SO_bind, lift.
  repeat split; intros flag config -> -> ->; reflexivity.
Qed.

End HandlerMore.

(** ** The text of a push message *)

Section PushFormatProperties.
Import PushFormat.

Lemma length_substring_0 (n : nat) (s : string) :
  (n <= String.length s)%nat -> String.length (substring 0 n s) = n.
Proof.
  revert s. induction n as [|n IH]; intros [|c s] Hn; simpl in *; try lia; try done.
  rewrite IH; lia.
Qed.

(** The branch of a push is its ref without the leading [refs/heads/]; a ref
    that holds no [refs/heads/], such as a tag's, is shown as it is. *)
Theorem branch_of_ref (ref : string) :
  branch ("refs/heads/" +:+ ref) = ref /\
  (contains "refs/heads/" ref = false -> branch ref = ref).
Proof.
  unfold branch. split.
  - apply String_replace_leading.
  - apply String_replace_not_contains.
Qed.

Lemma branch_of_ref_witness :
  branch "refs/heads/main" = "main"%string /\
  branch "refs/tags/v1.0" = "refs/tags/v1.0"%string.
Proof.
  split.
  - exact (proj1 (branch_of_ref "main")).
  - apply (proj2 (branch_of_ref "refs/tags/v1.0")). reflexivity.
Defined.

(** How a commit message is shown: whole when it has at most 47 characters;
    its first 47 characters and three dots, 50 characters in all, when it has
    more than 50; and when it has 48, 49 or 50, its first 47 characters with
    no dots, the rest being dropped without a mark. *)
Theorem commit_text_cases (message : string) :
  ((String.length message <= 47)%nat -> commit_text message = message) /\
  ((47 < String.length message <= 50)%nat ->
   commit_text message = slice message 0 47 /\
   String.length (commit_text message) = 47%nat) /\
  ((50 < String.length message)%nat ->
   commit_text message = slice message 0 47 +:+ "..." /\
   String.length (commit_text message) = 50%nat).
Proof.
  unfold commit_text, slice. change (50 - 3 - 0)%nat with 47%nat.
  change (47 - 0)%nat with 47%nat. repeat split.
  - intros Hlen. rewrite substring_0_all by done.
    rewrite (proj2 (Nat.ltb_ge _ _)) by lia. apply app_empty_r.
  - rewrite (proj2 (Nat.ltb_ge _ _)) by lia. apply app_empty_r.
  - rewrite (proj2 (Nat.ltb_ge _ _)) by lia. rewrite app_empty_r.
    apply length_substring_0. lia.
  - by rewrite (proj2 (Nat.ltb_lt _ _)) by lia.
  - rewrite (proj2 (Nat.ltb_lt _ _)) by lia.
    rewrite length_string_app, length_substring_0 by lia. reflexivity.
Qed.

Lemma commit_text_cases_witness :
  commit_text "fix: make the retry loop stop after the third attempt"
  = "fix: make the retry loop stop after the third a..."%string /\
  commit_text "fix: make the retry loop stop after three tries"
  = "fix: make the retry loop stop after three tries"%string /\
  commit_text "fix: make the retry loop stop after three tries!!"
  = "fix: make the retry loop stop after three tries"%string.
Proof.
  split; [|split].
  - apply (proj2 (proj2 (commit_text_cases
                           "fix: make the retry loop stop after the third attempt"))).
    cbn. lia.
  - apply (proj1 (commit_text_cases "fix: make the retry loop stop after three tries")).
    cbn. lia.
  - apply (proj1 (proj2 (commit_text_cases
                           "fix: make the retry loop stop after three tries!!"))).
    cbn. lia.
Defined.

End PushFormatProperties.

(** ** Routing and the pairs of [hexToBuffer] *)

Section RoutingAndPairs.
Context {Payload St : Type}.
Variable JSON_parse : string -> option Payload.
Variable Config : option cfgval.
Variable index : gmap string (list (Event Payload St)).
Variable secret : string.

(** Only a POST to [/github] reaches the dispatch: any other request is
    answered at once, 200 on [/health] whatever its method and 404 elsewhere,
    and changes nothing. *)
Theorem only_post_github_is_dispatched (req : Request) (w : world St) :
  pathname req <> "/github"%string \/ method req <> "POST"%string ->
  WebhookServer.handleRequest JSON_parse Config index secret req w
  = (w, Returned (if String.eqb (pathname req) "/health"
                  then MkResponse "OK" 200
                  else MkResponse "Not Found" 404)).
Proof.
  intros Hroute. unfold WebhookServer.handleRequest.
  destruct (String.eqb (pathname req) "/health"); [done|].
  destruct Hroute as [Hpath|Hmethod].
  - by rewrite (proj2 (String.eqb_neq _ _) Hpath).
  - rewrite (proj2 (String.eqb_neq _ _) Hmethod). by rewrite andb_false_r.
Qed.

Lemma decode_pairs_app (a b : string) :
  Nat.even (String.length a) = true ->
  decode_pairs (a +:+ b) = decode_pairs a ++ decode_pairs b.
Proof.
  induction a as [|c|c d rest IH] using decode_pairs_ind; [done..|].
  intros Heven. rewrite !app_String. cbn [decode_pairs].
  rewrite IH; [done|]. exact Heven.
Qed.

(** The pairs are read one by one: after an even number of characters the
    bytes of a longer string are those of the two parts, and one more
    character at the end adds nothing. *)
Theorem hexToBuffer_app (a : string) :
  Nat.even (String.length a) = true ->
  (forall b, CryptoUtils.hexToBuffer (a +:+ b)
             = CryptoUtils.hexToBuffer a ++ CryptoUtils.hexToBuffer b) /\
  (forall c, CryptoUtils.hexToBuffer (a +:+ String c "") = CryptoUtils.hexToBuffer a).
Proof.
  intros Heven. split.
  - intros b. rewrite !hexToBuffer_pairs. by apply decode_pairs_app.
  - intros c. rewrite !hexToBuffer_pairs, decode_pairs_app by done.
    cbn [decode_pairs]. apply app_nil_r.
Qed.

End RoutingAndPairs.

(** ** More scenarios, run *)

Section ScenariosMore.
Import Sample.

Lemma missing_event_type_is_bad_request_witness :
  (WebhookServer.handleGitHubWebhook JSON_parse Config index "secret"
     (MkRequest "/github" "POST" (Some "application/json"%string) None None "{}")
     fresh).2
  = Returned (MkResponse "Missing event type" 400).
Proof.
  rewrite (missing_event_type_is_bad_request JSON_parse Config index "secret"
             (MkRequest "/github" "POST" (Some "application/json"%string) None None "{}")
             fresh eq_refl (or_introl eq_refl)).
  reflexivity.
Defined.

Lemma malformed_json_is_bad_request_witness :
  (WebhookServer.handleGitHubWebhook JSON_parse Config index ""
     (MkRequest "/github" "POST" (Some "application/json"%string) (Some "push"%string)
        None "{")
     fresh).2
  = Returned (MkResponse "Invalid JSON" 400).
Proof.
  rewrite (malformed_json_is_bad_request JSON_parse Config index ""
             (MkRequest "/github" "POST" (Some "application/json"%string)
                (Some "push"%string) None "{")
             "push" fresh eq_refl eq_refl); [reflexivity|discriminate|by left|reflexivity].
Defined.

Lemma no_secret_ignores_signature_witness :
  WebhookServer.handleGitHubWebhook JSON_parse Config index ""
    (push_request "application/json" (Some "sha256=00"%string)) fresh
  = WebhookServer.handleGitHubWebhook JSON_parse Config index ""
      (push_request "application/json" None) fresh.
Proof.
  exact (no_secret_ignores_signature JSON_parse Config index ""
           (push_request "application/json" None) (Some "sha256=00"%string) fresh
           eq_refl).
Defined.

Lemma signed_delivery_passes_check_witness :
  WebhookServer.check_signature "s3cret"
    (push_request "application/json"
       (Some "sha256=adbde1ce40c89c14215687d5d762a47df6dfaefcfad61e2e86718ffc8498571b"%string))
    fresh
  = (fresh, Returned None).
Proof.
  apply (signed_delivery_passes_check "s3cret"); [discriminate|].
  vm_compute. reflexivity.
Defined.



Lemma validated_get_default_witness :
  ConfigManager.get
    (Some (ConfigValidation.validateConfig
             (CObj [("events"%string, CObj [("push"%string, CBool false)])])))
    (Some "events"%string) (Some "workflow_run"%string)
  = Returned (CBool true) /\
  ConfigManager.get
    (Some (ConfigValidation.validateConfig
             (CObj [("events"%string, CObj [("push"%string, CBool false)])])))
    (Some "app"%string) (Some "port"%string)
  = Returned (CNum 3000).
Proof.
  split.
  - apply (validated_get_default
             [("events"%string, CObj [("push"%string, CBool false)])]
             "events" "workflow_run" (CBool true)); try done; [apply NoDup_singleton|].
    right. exists [("push"%string, CBool false)].
    split; [reflexivity|]. split; [apply NoDup_singleton|reflexivity].
  - apply (validated_get_default
             [("events"%string, CObj [("push"%string, CBool false)])]
             "app" "port" (CNum 3000)); try done; [apply NoDup_singleton|].
    by left.
Defined.

Lemma validated_get_is_defined_witness :
  exists value,
    ConfigManager.get
      (Some (ConfigValidation.validateConfig
               (CObj [("events"%string, CObj [("push"%string, CStr "no")])])))
      (Some "events"%string) (Some "push"%string)
    = Returned value.
Proof.
  apply (validated_get_is_defined
           [("events"%string, CObj [("push"%string, CStr "no")])]
           "events" "push" (CBool true)); try done; [apply NoDup_singleton|].
  right. exists [("push"%string, CStr "no")]. split; [reflexivity|apply NoDup_singleton].
Defined.




Lemma null_payload_fails_before_sending_witness :
  PushEvent_execute sink embed Config JNull [] = ([], Threw "TypeError") /\
  WorkflowRunEvent_execute sink embed Config JNull [] = ([], Threw "TypeError") /\
  WorkflowJobEvent_execute sink embed Config JNull [] = ([], Threw "TypeError").
Proof.
  destruct (null_payload_fails_before_sending sink embed embed embed Config [])
    as (Hpush & Hrun & Hjob).
  split; [|split].
  - apply (Hpush (CBool true)
             (CObj [ ("show_file_changes"%string, CBool true);
                     ("max_commits_shown"%string, CNum 5);
                     ("show_commit_details"%string, CBool true);
                     ("embed_color"%string, CNum 0x00ff00) ])); reflexivity.
  - apply (Hrun (CBool true)
             (CObj [ ("show_duration"%string, CBool true);
                     ("show_conclusion"%string, CBool true);
                     ("embed_color"%string, CNum 0x0099ff) ])); reflexivity.
  - apply (Hjob (CBool true)
             (CObj [ ("show_steps"%string, CBool false);
                     ("show_runner"%string, CBool true);
                     ("embed_color"%string, CNum 0x6600cc) ])); reflexivity.
Defined.

Lemma workflow_message_sent_only_when_due_witness :
  exists flag config,
    ConfigManager.get Config (Some "events"%string) (Some "workflow_run"%string)
    = Returned flag /\ truthy flag = true /\
    ConfigManager.get Config (Some "events_config"%string) (Some "workflow_run"%string)
    = Returned config /\
    json_prop (JObj [("action"%string, JStr "completed")]) "action"
    = Returned (Some (JStr "completed")) /\
    embed config (JObj [("action"%string, JStr "completed")]) = Returned "message"%string.
Proof.
  apply (proj1 (workflow_message_sent_only_when_due sink embed embed Config
                  (JObj [("action"%string, JStr "completed")]) [] "message")).
  reflexivity.
Defined.

Lemma only_post_github_is_dispatched_witness :
  WebhookServer.handleRequest JSON_parse Config index "secret"
    (MkRequest "/github" "GET" None None None "") fresh
  = (fresh, Returned (MkResponse "Not Found" 404)) /\
  WebhookServer.handleRequest JSON_parse Config index "secret"
    (MkRequest "/health" "POST" None None None "") fresh
  = (fresh, Returned (MkResponse "OK" 200)).
Proof.
  split.
  - apply (only_post_github_is_dispatched JSON_parse Config index "secret"
             (MkRequest "/github" "GET" None None None "") fresh).
    right. discriminate.
  - apply (only_post_github_is_dispatched JSON_parse Config index "secret"
             (MkRequest "/health" "POST" None None None "") fresh).
    left. discriminate.
Defined.

Lemma hexToBuffer_app_witness :
  CryptoUtils.hexToBuffer "00ab" = [0; 171] /\
  CryptoUtils.hexToBuffer "00abf" = [0; 171].
Proof.
  split.
  - exact (proj1 (hexToBuffer_app "00" eq_refl) "ab").
  - exact (proj2 (hexToBuffer_app "00ab" eq_refl) "f"%char).
Defined.

End ScenariosMore.
